(** * Nisa World backend: sales, expenses and ledger aggregation

    A shallow embedding of the request handlers of [api/sales.py],
    [api/expenses.py], [api/dashboard.py] and [api/reports.py], of the
    update and delete handlers of [api/inventory.py] and of the payment
    summary of [services/export_service.py], and the properties of the
    stock ledger, the ownership policy and the ledger aggregator that hold
    (or fail) on them.

    Modelling conventions.
    - The relational store is a record of tables; a table is the list of its
      rows in storage order.  [find_unique]/[find_first] return the first row
      that satisfies the filter, [update] and [delete] act on that row.
    - A handler is a computation in the monad [M]: it reads and writes the
      store and may raise an [HTTPException].  The store is threaded through
      a raised exception as well, because the handlers never roll back.
    - A Python exception that is no [HTTPException] is a failure of its own
      ([Unhandled]); the [try]/[except] of a handler is written where its
      body can raise one.
    - The handlers that write a sale or an expense read an attribute
      [entry_date] from their request objects.  The request classes of
      [models/schemas.py] declare no such attribute, so the request records
      below have none, and the read raises [AttributeError].
    - [Decimal] columns and Python floats are exact rationals ([Qc]).  On
      amounts that are whole numbers of hundredths, sums and [round(x, 2)]
      are what the handlers compute on doubles, up to the rounding of the
      last binary digit; the properties that involve [round2] are stated
      for such amounts.
    - A column the handler leaves out of an insert takes its default, which
      is null for [invoice_no] and [description] and false for [edited].
    - Owner display names (the [users] lookups that fill [sold_by_name] and
      [added_by_name]) and the PDF rendering are left out; a handler returns
      the rows it wrote where the source wraps them in a response object. *)

From Stdlib Require Import ZArith QArith Qcanon Qround.
From Stdlib Require Import List String Ascii Bool Lia.
From Stdlib Require Import DecimalString.
From Stdlib Require Import Sorted Permutation DecimalZ.
Import ListNotations.

Local Open Scope string_scope.
Local Open Scope list_scope.
Local Open Scope Z_scope.

(** ** Amounts *)

Abbreviation amount := Qc.

(** [float(x) * n] for an integer [n]. *)
Definition of_int (n : Z) : amount := Q2Qc (inject_Z n).

Definition times (a : amount) (n : Z) : amount := (a * of_int n)%Qc.

(** Python's [sum]: a left fold that starts at 0. *)
Definition py_sum (l : list amount) : amount :=
  fold_left Qcplus l (Q2Qc 0).

(** [x <= 0] on amounts, as a boolean. *)
Definition amount_le0 (a : amount) : bool := Qle_bool (this a) 0.

(** Truth value of a number: zero is false. *)
Definition truthy_Z (n : Z) : bool := negb (n =? 0).
Definition truthy_amount (a : amount) : bool := negb (Qc_eq_bool a (Q2Qc 0)).

(** [round(x, 2)]: nearest multiple of 1/100, ties to the even one.  The
    handlers call it on a binary double, the model on the exact value; the
    two agree where that value is a whole number of hundredths. *)
Definition round_half_even (x : Q) : Z :=
  let f := Qfloor x in
  match Qcompare (x - inject_Z f) (1 # 2) with
  | Lt => f
  | Gt => f + 1
  | Eq => if Z.even f then f else f + 1
  end.

Definition round2 (a : amount) : amount :=
  Q2Qc (inject_Z (round_half_even (this a * inject_Z 100)) / inject_Z 100).

(** ** Strings *)

(** [sub in s] *)
Fixpoint str_in (sub s : string) : bool :=
  String.prefix sub s ||
  match s with
  | EmptyString => false
  | String _ s' => str_in sub s'
  end.

Fixpoint drop (n : nat) (s : string) : string :=
  match n, s with
  | O, _ => s
  | S n', String _ s' => drop n' s'
  | S _, EmptyString => EmptyString
  end.

(** [s.split(sep, 1)] for a separator that occurs in [s]: the text before
    the leftmost occurrence and the text after it; [None] when [sep] does not
    occur (Python then returns the one-element list [[s]]). *)
Fixpoint split_once (sep s : string) : option (string * string) :=
  if String.prefix sep s then Some (EmptyString, drop (String.length sep) s)
  else
    match s with
    | EmptyString => None
    | String c s' =>
        match split_once sep s' with
        | Some (before, rest) => Some (String c before, rest)
        | None => None
        end
    end.

Fixpoint ends_with (suffix s : string) : bool :=
  String.eqb suffix s ||
  match s with
  | EmptyString => false
  | String _ s' => ends_with suffix s'
  end.

Fixpoint zeros (n : nat) : string :=
  match n with
  | O => EmptyString
  | S n' => String "0" (zeros n')
  end.

(** [s.zfill(width)] *)
Definition zfill (width : nat) (s : string) : string :=
  if (width <=? String.length s)%nat then s
  else
    let pad := zeros (width - String.length s) in
    match s with
    | String c s' =>
        if (Ascii.eqb c "+" || Ascii.eqb c "-")%bool
        then String c (pad ++ s')%string
        else (pad ++ s)%string
    | EmptyString => pad
    end.

(** Whether [int(s)] accepts the string [s]: blanks, an optional sign,
    decimal digits with single underscores between them, blanks.  (Python
    also accepts digits and blanks beyond ASCII; these are refused here.) *)
Definition is_digit (c : ascii) : bool :=
  let n := nat_of_ascii c in ((48 <=? n) && (n <=? 57))%nat.

Definition is_blank (c : ascii) : bool :=
  let n := nat_of_ascii c in
  (((9 <=? n) && (n <=? 13)) || ((28 <=? n) && (n <=? 32)))%nat.

Fixpoint all_blank (s : string) : bool :=
  match s with
  | EmptyString => true
  | String c s' => is_blank c && all_blank s'
  end.

Fixpoint skip_blanks (s : string) : string :=
  match s with
  | EmptyString => EmptyString
  | String c s' => if is_blank c then skip_blanks s' else s
  end.

(** The digits and what follows them; [after_digit] tells whether the
    character before was a digit. *)
Fixpoint digits_then_blanks (after_digit : bool) (s : string) : bool :=
  match s with
  | EmptyString => after_digit
  | String c s' =>
      if is_digit c then digits_then_blanks true s'
      else if Ascii.eqb c "_" then
        after_digit
        && match s' with
           | String d _ => is_digit d
           | EmptyString => false
           end
        && digits_then_blanks false s'
      else after_digit && is_blank c && all_blank s'
  end.

Definition int_accepts (s : string) : bool :=
  match skip_blanks s with
  | EmptyString => false
  | String c s' =>
      if (Ascii.eqb c "+" || Ascii.eqb c "-")%bool
      then digits_then_blanks false s'
      else digits_then_blanks false (String c s')
  end.

(** [str(n)] for an integer. *)
Definition str_of_int (n : Z) : string := NilZero.string_of_int (Z.to_int n).

(** ** Timestamps *)

Record datetime := mk_datetime {
  year : Z;
  month : Z;
  day : Z;
  (** microseconds since midnight *)
  time_of_day : Z
}.

(** [datetime(y, m, 1)]: a [ValueError] ([None]) unless the year is in
    1..9999 and the month in 1..12. *)
Definition first_of_month (y m : Z) : option datetime :=
  if (1 <=? y) && (y <=? 9999) && (1 <=? m) && (m <=? 12)
  then Some (mk_datetime y m 1 0)
  else None.

Definition datetime_lt (a b : datetime) : bool :=
  (year a <? year b) ||
  ((year a =? year b) &&
   ((month a <? month b) ||
    ((month a =? month b) &&
     ((day a <? day b) ||
      ((day a =? day b) && (time_of_day a <? time_of_day b)))))).

Definition datetime_ge (a b : datetime) : bool := negb (datetime_lt a b).

(** ** Failures *)

(** A Python exception that is no [HTTPException]. *)
Inductive exception :=
| AttributeError
| NameError
| ValueError.

(** The [HTTPException]s the handlers raise, by what they report, and an
    exception of another kind on its way out: if it leaves the handler the
    framework answers 500. *)
Inductive failure :=
| ValidationError                              (* 400, malformed request *)
| InsufficientStock (available requested : Z)  (* 400, "Insufficient quantity" *)
| NotFound                                     (* 404 *)
| PermissionDenied                             (* 403 *)
| WriteFailed                                  (* 400, the store returned nothing *)
| ServerError                                  (* 500, from an [except Exception] clause *)
| Unhandled (e : exception).

Definition status_code (f : failure) : Z :=
  match f with
  | ValidationError => 400
  | InsufficientStock _ _ => 400
  | NotFound => 404
  | PermissionDenied => 403
  | WriteFailed => 400
  | ServerError => 500
  | Unhandled _ => 500
  end.

(** ** Tables *)

(** Rows of the [inventory] table (the spec's Product). *)
Module Inventory.
Record row := mk {
  id : Z;
  invoice_no : option string;
  product_name : string;
  category : string;
  cost_price : amount;
  quantity : Z;
  added_by : string;
  edited : bool;
  created_at : datetime
}.

Definition set_quantity (q : Z) (r : row) : row :=
  mk (id r) (invoice_no r) (product_name r) (category r) (cost_price r)
     q (added_by r) (edited r) (created_at r).
End Inventory.

(** Rows of the [sales] table (the spec's SaleLineItem). *)
Module Sales.
(** The [data] dictionary of [db.sales.create]: every column but the key
    and the creation time, which the store fills in. *)
Record data := mk_data {
  d_invoice_no : option string;
  d_customer_name : string;
  d_customer_address : option string;
  d_customer_phone : option string;
  d_product_name : string;
  d_category : string;
  d_quantity : Z;
  d_cost_price : amount;
  d_sale_price : amount;
  d_entry_date : option string;
  d_payment_type : string;
  d_advance_amount : option amount;
  d_sold_by : string;
  d_edited : bool
}.

Record row := mk {
  id : Z;
  invoice_no : option string;
  customer_name : string;
  customer_address : option string;
  customer_phone : option string;
  product_name : string;
  category : string;
  quantity : Z;
  cost_price : amount;
  sale_price : amount;
  entry_date : option string;
  payment_type : string;
  advance_amount : option amount;
  sold_by : string;
  edited : bool;
  created_at : datetime
}.

Definition of_data (i : Z) (t : datetime) (d : data) : row :=
  mk i (d_invoice_no d) (d_customer_name d) (d_customer_address d)
     (d_customer_phone d) (d_product_name d) (d_category d) (d_quantity d)
     (d_cost_price d) (d_sale_price d) (d_entry_date d) (d_payment_type d)
     (d_advance_amount d) (d_sold_by d) (d_edited d) t.

(** The [data] dictionary of [db.sales.update]: a key that is absent
    ([None]) leaves its column alone. *)
Record patch := mk_patch {
  u_edited : option bool;
  u_customer_name : option string;
  u_customer_address : option string;
  u_customer_phone : option string;
  u_sale_price : option amount;
  u_entry_date : option string;
  u_payment_type : option string;
  u_advance_amount : option amount;
  u_quantity : option Z
}.

Definition pick {A} (new : option A) (old : A) : A :=
  match new with Some v => v | None => old end.

Definition pick_opt {A} (new : option A) (old : option A) : option A :=
  match new with Some v => Some v | None => old end.

Definition apply_patch (u : patch) (r : row) : row :=
  mk (id r) (invoice_no r)
     (pick (u_customer_name u) (customer_name r))
     (pick_opt (u_customer_address u) (customer_address r))
     (pick_opt (u_customer_phone u) (customer_phone r))
     (product_name r) (category r)
     (pick (u_quantity u) (quantity r))
     (cost_price r)
     (pick (u_sale_price u) (sale_price r))
     (pick_opt (u_entry_date u) (entry_date r))
     (pick (u_payment_type u) (payment_type r))
     (pick_opt (u_advance_amount u) (advance_amount r))
     (sold_by r)
     (pick (u_edited u) (edited r))
     (created_at r).
End Sales.

(** Rows of the [expenses] table (the spec's ExpenseLineItem).  The column
    [material_name] holds the material and the vendor in one string. *)
Module Expenses.
Record data := mk_data {
  d_invoice_no : option string;
  d_material_name : string;
  d_amount : amount;
  d_payment_method : string;
  d_advance_amount : option amount;
  d_entry_date : option string;
  d_added_by : string;
  d_used : bool;
  d_edited : bool
}.

Record row := mk {
  id : Z;
  invoice_no : option string;
  material_name : string;
  amount_ : amount;
  payment_method : string;
  advance_amount : option amount;
  used : bool;
  description : option string;
  entry_date : option string;
  added_by : string;
  edited : bool;
  created_at : datetime
}.

Definition of_data (i : Z) (t : datetime) (d : data) : row :=
  mk i (d_invoice_no d) (d_material_name d) (d_amount d)
     (d_payment_method d) (d_advance_amount d) (d_used d) None
     (d_entry_date d) (d_added_by d) (d_edited d) t.
End Expenses.

(** The authenticated principal handed to every handler
    ([UserResponse] in [models/schemas.py]); [role] is ["admin"] or
    ["staff"]. *)
Module User.
Record t := mk {
  id : string;
  name : string;
  email : string;
  role : string
}.
End User.

(** The store: the three tables, the next keys of the two tables the
    handlers insert into, and the clock that stamps [created_at]. *)
Record store := mk_store {
  inventory : list Inventory.row;
  sales : list Sales.row;
  expenses : list Expenses.row;
  next_sale_id : Z;
  next_expense_id : Z;
  now : datetime
}.

Definition with_inventory (inv : list Inventory.row) (s : store) : store :=
  mk_store inv (sales s) (expenses s) (next_sale_id s) (next_expense_id s) (now s).

Definition with_sales (l : list Sales.row) (s : store) : store :=
  mk_store (inventory s) l (expenses s) (next_sale_id s) (next_expense_id s) (now s).

(** Generic row operations on a table. *)
Section Table.
Context {A : Type}.

Fixpoint update_first (p : A -> bool) (f : A -> A) (l : list A) : list A :=
  match l with
  | [] => []
  | x :: l' => if p x then f x :: l' else x :: update_first p f l'
  end.

Fixpoint delete_first (p : A -> bool) (l : list A) : list A :=
  match l with
  | [] => []
  | x :: l' => if p x then l' else x :: delete_first p l'
  end.
End Table.

(** ** The handler monad *)

Definition M (A : Type) : Type := store -> (failure + A) * store.

Definition ret {A} (a : A) : M A := fun s => (inr a, s).

Definition bind {A B} (m : M A) (k : A -> M B) : M B :=
  fun s =>
    match m s with
    | (inl e, s') => (inl e, s')
    | (inr a, s') => k a s'
    end.

Definition raise {A} (e : failure) : M A := fun s => (inl e, s).

Declare Scope handler_scope.
Delimit Scope handler_scope with handler.
Notation "x <- c ;; k" := (bind c (fun x => k))
  (at level 61, c at next level, right associativity) : handler_scope.
Notation "c ;; k" := (bind c (fun _ => k))
  (at level 61, right associativity) : handler_scope.
Local Open Scope handler_scope.

(** [if cond: raise HTTPException(...)] *)
Definition raise_if (cond : bool) (e : failure) : M unit :=
  if cond then raise e else ret tt.

(** The clauses that close a handler,
<<
    try: body
    except HTTPException: raise
    except Exception as e: clause(e)
>>
    An [HTTPException] passes, any other exception goes to the clause. *)
Definition try_except {A} (body : M A) (clause : exception -> M A) : M A :=
  fun s =>
    match body s with
    | (inl (Unhandled e), s') => clause e s'
    | out => out
    end.

(** [raise HTTPException(status_code=500, ...)], also after a call of
    [traceback.format_exc()] where [traceback] is imported. *)
Definition answer_500 {A} (e : exception) : M A := raise ServerError.

(** [error_trace = traceback.format_exc()] in a function of [api/sales.py]
    that does not import [traceback] (the module does not either): the
    clause itself raises [NameError]. *)
Definition format_exc_unbound {A} (e : exception) : M A :=
  raise (Unhandled NameError).

(** [request.entry_date] on an object of a request class of
    [models/schemas.py]: none of them declares the attribute. *)
Definition entry_date_of {A} (request : A) : M (option string) :=
  raise (Unhandled AttributeError).

(** [for x in l: body(x)], collecting what each round appends. *)
Fixpoint for_each {A B} (body : A -> M B) (l : list A) : M (list B) :=
  match l with
  | [] => ret []
  | x :: l' =>
      y <- body x ;;
      ys <- for_each body l' ;;
      ret (y :: ys)
  end.

(** *** Store primitives *)

Definition has_id (i : Z) (r : Inventory.row) : bool := Inventory.id r =? i.
Definition sale_has_id (i : Z) (r : Sales.row) : bool := Sales.id r =? i.

(** [db.inventory.find_unique(where={"id": i})] *)
Definition inventory_find_unique (i : Z) : M (option Inventory.row) :=
  fun s => (inr (find (has_id i) (inventory s)), s).

(** [db.inventory.find_first(where={"product_name": n, "category": c})] *)
Definition same_product (n c : string) (r : Inventory.row) : bool :=
  String.eqb (Inventory.product_name r) n && String.eqb (Inventory.category r) c.

Definition inventory_find_first (n c : string) : M (option Inventory.row) :=
  fun s => (inr (find (same_product n c) (inventory s)), s).

(** [db.inventory.update(where={"id": i}, data={"quantity": q})] *)
Definition inventory_update_quantity (i q : Z) : M unit :=
  fun s =>
    (inr tt,
     with_inventory (update_first (has_id i) (Inventory.set_quantity q) (inventory s)) s).

(** [db.sales.create(data=d)] *)
Definition sales_create (d : Sales.data) : M Sales.row :=
  fun s =>
    let r := Sales.of_data (next_sale_id s) (now s) d in
    (inr r,
     mk_store (inventory s) (sales s ++ [r]) (expenses s)
              (next_sale_id s + 1) (next_expense_id s) (now s)).

(** [db.sales.find_unique(where={"id": i})] *)
Definition sales_find_unique (i : Z) : M (option Sales.row) :=
  fun s => (inr (find (sale_has_id i) (sales s)), s).

(** [db.sales.find_first(where={"invoice_no": inv, "sold_by": uid})] *)
Definition sale_on_invoice_by (inv uid : string) (r : Sales.row) : bool :=
  match Sales.invoice_no r with
  | Some i => String.eqb i inv
  | None => false
  end && String.eqb (Sales.sold_by r) uid.

Definition sales_find_first (inv uid : string) : M (option Sales.row) :=
  fun s => (inr (find (sale_on_invoice_by inv uid) (sales s)), s).

(** [db.sales.update(where={"id": i}, data=u)]: the updated row, or [None]
    when no row has that key. *)
Definition sales_update (i : Z) (u : Sales.patch) : M (option Sales.row) :=
  fun s =>
    (inr (option_map (Sales.apply_patch u) (find (sale_has_id i) (sales s))),
     with_sales (update_first (sale_has_id i) (Sales.apply_patch u) (sales s)) s).

(** [db.sales.delete(where={"id": i})]: the deleted row, or [None]. *)
Definition sales_delete (i : Z) : M (option Sales.row) :=
  fun s =>
    (inr (find (sale_has_id i) (sales s)),
     with_sales (delete_first (sale_has_id i) (sales s)) s).

(** ** Requests ([models/schemas.py]) *)

Module SalesCreate.
Record t := mk {
  customer_name : string;
  customer_address : string;
  customer_phone : string;
  product_id : Z;
  quantity : Z;
  sale_price : amount;
  payment_type : string;
  advance_amount : amount
}.
End SalesCreate.

Module SaleItem.
Record t := mk {
  product_id : Z;
  quantity : Z;
  sale_price : amount
}.
End SaleItem.

Module BulkSalesCreate.
Record t := mk {
  customer_name : string;
  customer_address : option string;
  customer_phone : option string;
  payment_type : string;
  advance_amount : amount;
  items : list SaleItem.t
}.
End BulkSalesCreate.

Module SalesUpdate.
Record t := mk {
  customer_name : option string;
  customer_address : option string;
  customer_phone : option string;
  quantity : option Z;
  sale_price : option amount;
  payment_type : option string;
  advance_amount : option amount
}.
End SalesUpdate.

(** ** Sequence allocator *)

(** What [db.query_raw("SELECT nextval('invoice_seq') as next_val")] gives:
    the rows of the answer (a row may lack the column), or an exception, in
    which case the handler reads the wall clock ([time], in seconds). *)
Inductive sequence_reply :=
| Rows (rows : list (option Z))
| Unavailable (time : Z).

Definition next_val (r : sequence_reply) : Z :=
  match r with
  | Rows (Some v :: _) => v
  | Rows (None :: _) => 1
  | Rows [] => 1
  | Unavailable time => time mod 1000000
  end.

Definition invoice_number (r : sequence_reply) : string :=
  ("INV-" ++ zfill 6 (str_of_int (next_val r)))%string.

(** ** [api/sales.py] *)

(** [x if x else 0] *)
Definition or_zero (a : amount) : amount :=
  if truthy_amount a then a else Q2Qc 0.


(** The first loop of [create_bulk_sale]: field validation of one item. *)
Definition validate_item (item : SaleItem.t) : M unit :=
  raise_if (negb (truthy_Z (SaleItem.product_id item))
            || (SaleItem.product_id item <=? 0)) ValidationError ;;
  raise_if (negb (truthy_Z (SaleItem.quantity item))
            || (SaleItem.quantity item <=? 0)) ValidationError ;;
  raise_if (negb (truthy_amount (SaleItem.sale_price item))
            || amount_le0 (SaleItem.sale_price item)) ValidationError.

(** The body of the second loop of [create_bulk_sale]: one line of the
    invoice is looked up and checked; [sale_data.entry_date] is read, and
    raises, while the [data] of the insert is built, before the line is
    recorded and debited. *)
Definition bulk_sale_item (invoice_no : string) (sale_data : BulkSalesCreate.t)
    (current_user : User.t) (item : SaleItem.t) : M Sales.row :=
  product <- inventory_find_unique (SaleItem.product_id item) ;;
  match product with
  | None => raise NotFound
  | Some product =>
      raise_if (Inventory.quantity product <? SaleItem.quantity item)
               (InsufficientStock (Inventory.quantity product)
                                  (SaleItem.quantity item)) ;;
      entry_date <- entry_date_of sale_data ;;
      created_sale <- sales_create
        (Sales.mk_data
           (Some invoice_no)
           (BulkSalesCreate.customer_name sale_data)
           (BulkSalesCreate.customer_address sale_data)
           (BulkSalesCreate.customer_phone sale_data)
           (Inventory.product_name product)
           (Inventory.category product)
           (SaleItem.quantity item)
           (Inventory.cost_price product)
           (SaleItem.sale_price item)
           entry_date
           (BulkSalesCreate.payment_type sale_data)
           (Some (or_zero (BulkSalesCreate.advance_amount sale_data)))
           (User.id current_user)
           false) ;;
      let new_quantity := Inventory.quantity product - SaleItem.quantity item in
      inventory_update_quantity (SaleItem.product_id item) new_quantity ;;
      ret created_sale
  end.

(** [create_bulk_sale] *)
Definition create_bulk_sale (seq : sequence_reply) (sale_data : BulkSalesCreate.t)
    (current_user : User.t) : M (list Sales.row) :=
  try_except
    match BulkSalesCreate.items sale_data with
    | [] => raise ValidationError
    | items =>
        for_each validate_item items ;;
        let invoice_no := invoice_number seq in
        for_each (bulk_sale_item invoice_no sale_data current_user) items
    end
    answer_500.

(** The loop body of [add_sale_items_to_invoice]. *)
Definition append_sale_item (invoice_no : string) (sale_data : BulkSalesCreate.t)
    (current_user : User.t) (final_advance : amount) (item : SaleItem.t)
  : M Sales.row :=
  product <- inventory_find_unique (SaleItem.product_id item) ;;
  match product with
  | None => raise NotFound
  | Some product =>
      raise_if (Inventory.quantity product <? SaleItem.quantity item)
               (InsufficientStock (Inventory.quantity product)
                                  (SaleItem.quantity item)) ;;
      entry_date <- entry_date_of sale_data ;;
      created_sale <- sales_create
        (Sales.mk_data
           (Some invoice_no)
           (BulkSalesCreate.customer_name sale_data)
           (BulkSalesCreate.customer_address sale_data)
           (BulkSalesCreate.customer_phone sale_data)
           (Inventory.product_name product)
           (Inventory.category product)
           (SaleItem.quantity item)
           (Inventory.cost_price product)
           (SaleItem.sale_price item)
           entry_date
           (BulkSalesCreate.payment_type sale_data)
           (Some (or_zero final_advance))
           (User.id current_user)
           true) ;;
      inventory_update_quantity (SaleItem.product_id item)
        (Inventory.quantity product - SaleItem.quantity item) ;;
      ret created_sale
  end.

(** [add_sale_items_to_invoice] *)
Definition add_sale_items_to_invoice (invoice_no : string)
    (sale_data : BulkSalesCreate.t) (current_user : User.t)
  : M (list Sales.row) :=
  try_except
    match BulkSalesCreate.items sale_data with
    | [] => raise ValidationError
    | items =>
        (if String.eqb (User.role current_user) "staff" then
           existing <- sales_find_first invoice_no (User.id current_user) ;;
           match existing with
           | None => raise PermissionDenied
           | Some _ => ret tt
           end
         else ret tt) ;;
        let final_advance :=
          if negb (String.eqb (BulkSalesCreate.payment_type sale_data) "1")
          then BulkSalesCreate.advance_amount sale_data
          else Q2Qc 0 in
        for_each (append_sale_item invoice_no sale_data current_user final_advance)
                 items
    end
    format_exc_unbound.

(** The ownership check shared by [update_sale] and [delete_sale]:
    [current_user.role != "admin" and existing_sale.sold_by != str(current_user.id)] *)
Definition not_permitted (current_user : User.t) (existing_sale : Sales.row) : bool :=
  negb (String.eqb (User.role current_user) "admin")
  && negb (String.eqb (Sales.sold_by existing_sale) (User.id current_user)).

(** [update_sale].  [sale.entry_date] is read, and raises, while
    [update_data] is built. *)
Definition update_sale (sale_id : Z) (sale : SalesUpdate.t) (current_user : User.t)
  : M Sales.row :=
  try_except
    (existing_sale <- sales_find_unique sale_id ;;
     match existing_sale with
     | None => raise NotFound
     | Some existing_sale =>
         raise_if (not_permitted current_user existing_sale) PermissionDenied ;;
         entry_date <- entry_date_of sale ;;
         let update_data :=
           Sales.mk_patch
             (Some true)
             (SalesUpdate.customer_name sale)
             (SalesUpdate.customer_address sale)
             (SalesUpdate.customer_phone sale)
             (SalesUpdate.sale_price sale)
             entry_date
             (SalesUpdate.payment_type sale)
             (SalesUpdate.advance_amount sale)
             (match SalesUpdate.quantity sale with
              | Some q =>
                  if negb (q =? Sales.quantity existing_sale) then Some q else None
              | None => None
              end) in
         updated_sale <- sales_update sale_id update_data ;;
         match updated_sale with
         | None => raise WriteFailed
         | Some updated_sale => ret updated_sale
         end
     end)
    answer_500.

(** [delete_sale] *)
Definition delete_sale (sale_id : Z) (restore_inventory : bool)
    (current_user : User.t) : M unit :=
  existing_sale <- sales_find_unique sale_id ;;
  match existing_sale with
  | None => raise NotFound
  | Some existing_sale =>
      raise_if (not_permitted current_user existing_sale) PermissionDenied ;;
      (if restore_inventory then
         product <- inventory_find_first (Sales.product_name existing_sale)
                                         (Sales.category existing_sale) ;;
         match product with
         | Some product =>
             let new_quantity :=
               Inventory.quantity product + Sales.quantity existing_sale in
             inventory_update_quantity (Inventory.id product) new_quantity
         | None => ret tt
         end
       else ret tt) ;;
      deleted_sale <- sales_delete sale_id ;;
      match deleted_sale with
      | None => raise NotFound
      | Some _ => ret tt
      end
  end.

(** ** [api/expenses.py] *)

Module ExpenseCreate.
Record t := mk {
  material_name : string;
  vendor_name : string;
  amount_ : amount;
  payment_method : string;
  advance_amount : amount
}.
End ExpenseCreate.

Module ExpenseItem.
Record t := mk {
  material_name : string;
  vendor_name : string;
  amount_ : amount
}.
End ExpenseItem.

Module BulkExpenseCreate.
Record t := mk {
  payment_method : string;
  advance_amount : amount;
  items : list ExpenseItem.t
}.
End BulkExpenseCreate.

Module ExpenseResponse.
Record t := mk {
  id : Z;
  invoice_no : option string;
  material_name : string;
  vendor_name : string;
  amount_ : amount;
  payment_method : string;
  advance_amount : amount;
  used : bool;
  description : option string;
  added_by : string;
  edited : bool;
  created_at : datetime;
  entry_date : option string
}.
End ExpenseResponse.

Definition delimiter : string := " - ".

(** [f"{material_name} - {vendor_name}"] *)
Definition combined_name (material_name vendor_name : string) : string :=
  (material_name ++ delimiter ++ vendor_name)%string.

(** The split every reader of the column performs:
<<
    if " - " in stored:
        parts = stored.split(" - ", 1)
        material_name, vendor_name = parts[0], parts[1]
    else:
        material_name, vendor_name = stored, "Unknown"
>>
    (the [None] branch under a positive test is never taken, see
    [split_once_defined]). *)
Definition split_material_name (stored : string) : string * string :=
  if str_in delimiter stored then
    match split_once delimiter stored with
    | Some (material_name, vendor_name) => (material_name, vendor_name)
    | None => (stored, "Unknown")
    end
  else (stored, "Unknown").

(** [float(x) if x is not None else 0] *)
Definition or_zero_opt (a : option amount) : amount :=
  match a with Some v => v | None => Q2Qc 0 end.

(** The [ExpenseResponse] built from a stored row; [edited] is what the
    caller reports for that flag. *)
Definition expense_response (edited : bool) (e : Expenses.row) : ExpenseResponse.t :=
  let '(material_name, vendor_name) := split_material_name (Expenses.material_name e) in
  ExpenseResponse.mk
    (Expenses.id e) (Expenses.invoice_no e) material_name vendor_name
    (Expenses.amount_ e) (Expenses.payment_method e)
    (or_zero_opt (Expenses.advance_amount e)) (Expenses.used e)
    (Expenses.description e) (Expenses.added_by e) edited
    (Expenses.created_at e) (Expenses.entry_date e).

(** [db.expenses.create(data=d)] *)
Definition expenses_create (d : Expenses.data) : M Expenses.row :=
  fun s =>
    let r := Expenses.of_data (next_expense_id s) (now s) d in
    (inr r,
     mk_store (inventory s) (sales s) (expenses s ++ [r])
              (next_sale_id s) (next_expense_id s + 1) (now s)).

(** [db.expenses.find_first(where={"invoice_no": inv, "added_by": uid})] *)
Definition expense_on_invoice_by (inv uid : string) (r : Expenses.row) : bool :=
  match Expenses.invoice_no r with
  | Some i => String.eqb i inv
  | None => false
  end && String.eqb (Expenses.added_by r) uid.

Definition expenses_find_first (inv uid : string) : M (option Expenses.row) :=
  fun s => (inr (find (expense_on_invoice_by inv uid) (expenses s)), s).

(** [create_expense].  [expense.entry_date] is read, and raises, while
    [insert_data] is built. *)
Definition create_expense (expense : ExpenseCreate.t) (current_user : User.t)
  : M ExpenseResponse.t :=
  try_except
    (let combined := combined_name (ExpenseCreate.material_name expense)
                                   (ExpenseCreate.vendor_name expense) in
     entry_date <- entry_date_of expense ;;
     created_expense <- expenses_create
       (Expenses.mk_data
          None combined
          (ExpenseCreate.amount_ expense)
          (ExpenseCreate.payment_method expense)
          (Some (or_zero (ExpenseCreate.advance_amount expense)))
          entry_date
          (User.id current_user)
          false false) ;;
     ret (expense_response false created_expense))
    answer_500.



(** The loop body of [add_expense_items_to_invoice]. *)
Definition append_expense_item (invoice_no : string)
    (expense_data : BulkExpenseCreate.t) (current_user : User.t)
    (final_advance : amount) (item : ExpenseItem.t) : M ExpenseResponse.t :=
  let combined := combined_name (ExpenseItem.material_name item)
                                (ExpenseItem.vendor_name item) in
  entry_date <- entry_date_of expense_data ;;
  created_expense <- expenses_create
    (Expenses.mk_data
       (Some invoice_no) combined
       (ExpenseItem.amount_ item)
       (BulkExpenseCreate.payment_method expense_data)
       (Some (or_zero final_advance))
       entry_date
       (User.id current_user)
       false true) ;;
  ret (expense_response true created_expense).

(** [add_expense_items_to_invoice] *)
Definition add_expense_items_to_invoice (invoice_no : string)
    (expense_data : BulkExpenseCreate.t) (current_user : User.t)
  : M (list ExpenseResponse.t) :=
  try_except
    match BulkExpenseCreate.items expense_data with
    | [] => raise ValidationError
    | items =>
        (if String.eqb (User.role current_user) "staff" then
           existing <- expenses_find_first invoice_no (User.id current_user) ;;
           match existing with
           | None => raise PermissionDenied
           | Some _ => ret tt
           end
         else ret tt) ;;
        let final_advance :=
          if negb (String.eqb (BulkExpenseCreate.payment_method expense_data) "1")
          then BulkExpenseCreate.advance_amount expense_data
          else Q2Qc 0 in
        for_each (append_expense_item invoice_no expense_data current_user final_advance)
                 items
    end
    answer_500.

(** [order={"created_at": "desc"}]: a stable insertion sort, newest first. *)
Section OrderBy.
Context {A : Type} (created_at : A -> datetime).

Fixpoint insert_desc (x : A) (l : list A) : list A :=
  match l with
  | [] => [x]
  | y :: l' =>
      if datetime_lt (created_at x) (created_at y)
      then y :: insert_desc x l'
      else x :: l
  end.

Definition order_desc (l : list A) : list A :=
  fold_right insert_desc [] l.
End OrderBy.

(** The rows a principal's listing and totals range over: a staff member's
    filter is [{"added_by": str(current_user.id)}], everyone else's is empty. *)
Definition expenses_where (current_user : User.t) (e : Expenses.row) : bool :=
  if String.eqb (User.role current_user) "staff"
  then String.eqb (Expenses.added_by e) (User.id current_user)
  else true.

Definition sales_where (current_user : User.t) (r : Sales.row) : bool :=
  if String.eqb (User.role current_user) "staff"
  then String.eqb (Sales.sold_by r) (User.id current_user)
  else true.

(** [get_expenses]: a read, so a function of the store. *)
Definition get_expenses (current_user : User.t) (s : store) : list ExpenseResponse.t :=
  let expenses_data :=
    order_desc Expenses.created_at (filter (expenses_where current_user) (expenses s)) in
  map (fun item => expense_response (Expenses.edited item) item) expenses_data.

(** ** [api/dashboard.py] *)

Module DashboardStats.
Record t := mk {
  total_sales : amount;
  total_profit : amount;
  total_expenses : amount;
  total_pending : amount;
  inventory_value : amount;
  sales_count : nat;
  expenses_count : nat;
  inventory_count : nat
}.
End DashboardStats.

(** [float(sale.sale_price) * sale.quantity] *)
Definition revenue (sale : Sales.row) : amount :=
  times (Sales.sale_price sale) (Sales.quantity sale).

(** [float(sale.cost_price) * sale.quantity] *)
Definition cogs (sale : Sales.row) : amount :=
  times (Sales.cost_price sale) (Sales.quantity sale).

(** [float(sale.advance_amount) if sale.advance_amount else 0] *)
Definition advance_paid (sale : Sales.row) : amount :=
  match Sales.advance_amount sale with
  | Some a => or_zero a
  | None => Q2Qc 0
  end.

(** [str(sale.payment_type) == "2"] *)
Definition is_advance (sale : Sales.row) : bool :=
  String.eqb (Sales.payment_type sale) "2".

(** [get_dashboard_stats] *)
Definition get_dashboard_stats (current_user : User.t) (s : store)
  : DashboardStats.t :=
  let sales_data := filter (sales_where current_user) (sales s) in
  let total_sales := py_sum (map revenue sales_data) in
  let total_cogs := py_sum (map cogs sales_data) in
  let total_pending :=
    py_sum (map (fun sale => (revenue sale - advance_paid sale)%Qc)
                (filter is_advance sales_data)) in
  let sales_count := List.length sales_data in
  let expenses_data := filter (expenses_where current_user) (expenses s) in
  let total_expenses := py_sum (map Expenses.amount_ expenses_data) in
  let expenses_count := List.length expenses_data in
  let total_profit := (total_sales - total_cogs - total_expenses)%Qc in
  let inventory_data := inventory s in
  let inventory_value :=
    py_sum (map (fun item => times (Inventory.cost_price item) (Inventory.quantity item))
                inventory_data) in
  let inventory_count := List.length inventory_data in
  DashboardStats.mk total_sales total_profit total_expenses total_pending
                    inventory_value sales_count expenses_count inventory_count.

(** ** [api/reports.py] *)

Module MonthlyData.
Record t := mk {
  month_name : string;
  month_number : Z;
  revenue : amount;
  expenses : amount;
  profit : amount
}.
End MonthlyData.

Module MonthlyReportResponse.
Record t := mk {
  months : list MonthlyData.t;
  total_revenue : amount;
  total_expenses : amount;
  total_profit : amount
}.
End MonthlyReportResponse.

Definition month_names : list string :=
  ["January"; "February"; "March"; "April"; "May"; "June";
   "July"; "August"; "September"; "October"; "November"; "December"].

(** The [created_at] filter of month [month_num] of [year],
<<
    {'gte': datetime(year, month_num, 1),
     'lt': datetime(year, month_num + 1, 1) if month_num < 12
           else datetime(year + 1, 1, 1)}
>>
    from the first of the month up to the first of the next one, which for
    December is January 1 of the next year. *)
Definition month_filter (y month_num : Z) : option (datetime * datetime) :=
  match first_of_month y month_num with
  | None => None
  | Some gte =>
      match (if month_num <? 12
             then first_of_month y (month_num + 1)
             else first_of_month (y + 1) 1) with
      | None => None
      | Some lt => Some (gte, lt)
      end
  end.

Definition created_in (w : datetime * datetime) (t : datetime) : bool :=
  datetime_ge t (fst w) && datetime_lt t (snd w).

(** The variables the loop of [get_monthly_report] carries. *)
Record report_state := mk_report_state {
  monthly_data : list MonthlyData.t;
  total_revenue : amount;
  total_cogs : amount;
  total_expenses : amount
}.

(** One round of [for month_num in range(1, 13)]. *)
Definition report_month (y : Z) (s : store) (st : report_state) (month_num : Z)
  : option report_state :=
  match month_filter y month_num with
  | None => None
  | Some w =>
      let sales_ := filter (fun r => created_in w (Sales.created_at r)) (sales s) in
      let month_revenue := py_sum (map revenue sales_) in
      let month_cogs := py_sum (map cogs sales_) in
      let expenses_ :=
        filter (fun e => created_in w (Expenses.created_at e)) (expenses s) in
      let month_expenses := py_sum (map Expenses.amount_ expenses_) in
      let month_profit := (month_revenue - month_cogs - month_expenses)%Qc in
      Some (mk_report_state
              (monthly_data st ++
                 [MonthlyData.mk
                    (nth (Z.to_nat (month_num - 1)) month_names "")
                    month_num
                    (round2 month_revenue)
                    (round2 month_expenses)
                    (round2 month_profit)])
              (total_revenue st + month_revenue)%Qc
              (total_cogs st + month_cogs)%Qc
              (total_expenses st + month_expenses)%Qc)
  end.

Definition range_1_13 : list Z := [1; 2; 3; 4; 5; 6; 7; 8; 9; 10; 11; 12].

(** The loop over the given months, from state [st]; [None] once a round
    has raised. *)
Definition report_loop (y : Z) (s : store) (months : list Z) (st : report_state)
  : option report_state :=
  fold_left (fun acc month_num =>
               match acc with
               | Some st' => report_month y s st' month_num
               | None => None
               end)
            months (Some st).

(** [get_monthly_report]; the principal is a parameter of the handler and is
    not consulted.  [None] is the [ValueError] of a date out of range, which
    the handler does not catch. *)
Definition get_monthly_report (y : Z) (current_user : User.t) (s : store)
  : option MonthlyReportResponse.t :=
  match report_loop y s range_1_13
                    (mk_report_state [] (Q2Qc 0) (Q2Qc 0) (Q2Qc 0)) with
  | None => None
  | Some st =>
      let total_profit := (total_revenue st - total_cogs st - total_expenses st)%Qc in
      Some (MonthlyReportResponse.mk
              (monthly_data st)
              (round2 (total_revenue st))
              (round2 (total_expenses st))
              (round2 total_profit))
  end.

(** ** More of [api/sales.py]: listing and invoices *)

(** [get_sales], without the owner names: the rows the principal sees,
    newest first. *)
Definition get_sales (current_user : User.t) (s : store) : list Sales.row :=
  order_desc Sales.created_at (filter (sales_where current_user) (sales s)).

(** [order={"created_at": "asc"}]: a stable insertion sort, oldest first. *)
Section OrderAsc.
Context {A : Type} (created_at : A -> datetime).

Fixpoint insert_asc (x : A) (l : list A) : list A :=
  match l with
  | [] => [x]
  | y :: l' =>
      if datetime_lt (created_at y) (created_at x)
      then y :: insert_asc x l'
      else x :: l
  end.

Definition order_asc (l : list A) : list A :=
  fold_right insert_asc [] l.
End OrderAsc.

(** The filter of [generate_invoice]: the invoice number, and for a staff
    member also [sold_by]. *)
Definition invoice_where (invoice_no : string) (current_user : User.t)
    (r : Sales.row) : bool :=
  match Sales.invoice_no r with
  | Some i => String.eqb i invoice_no
  | None => false
  end
  && (if String.eqb (User.role current_user) "staff"
      then String.eqb (Sales.sold_by r) (User.id current_user)
      else true).

(** [generate_invoice] up to the call of the renderer: the sale rows handed
    to [create_invoice_pdf], or 404 when there is none. *)
Definition generate_invoice (invoice_no : string) (current_user : User.t)
    (s : store) : failure + list Sales.row :=
  let sales_data :=
    order_asc Sales.created_at
              (filter (invoice_where invoice_no current_user) (sales s)) in
  match sales_data with
  | [] => inl NotFound
  | _ => inr sales_data
  end.

(** [x > 0] on amounts, as a boolean. *)
Definition amount_gt0 (a : amount) : bool := negb (Qle_bool (this a) 0).

(** The figures of the summary block of [create_invoice_pdf]
    ([services/export_service.py]). *)
Module InvoiceSummary.
Record t := mk {
  total_amount : amount;
  total_advance : amount;
  total_remaining : amount;
  is_advance_payment : bool
}.
End InvoiceSummary.

(** The arithmetic of [create_invoice_pdf]: the total over all lines, the
    advance and the payment type of the first line.  On an empty list
    [sales_data[0]] raises ([None]). *)
Definition invoice_summary (sales_data : list Sales.row)
  : option InvoiceSummary.t :=
  match sales_data with
  | [] => None
  | first_sale :: _ =>
      let total_amount := py_sum (map revenue sales_data) in
      let payment_type :=
        if String.eqb (Sales.payment_type first_sale) ""
        then "1" else Sales.payment_type first_sale in
      let total_advance :=
        match Sales.advance_amount first_sale with
        | Some a => or_zero a
        | None => Q2Qc 0
        end in
      let total_remaining := (total_amount - total_advance)%Qc in
      let is_advance_payment :=
        String.eqb payment_type "2" || amount_gt0 total_advance in
      Some (InvoiceSummary.mk total_amount total_advance total_remaining
                              is_advance_payment)
  end.

(** ** More of [api/expenses.py]: update, delete and invoices *)

Module ExpenseUpdate.
Record t := mk {
  material_name : option string;
  vendor_name : option string;
  amount_ : option amount;
  payment_method : option string;
  advance_amount : option amount;
  used : option bool;
  description : option string
}.
End ExpenseUpdate.

(** The [data] dictionary of [db.expenses.update]. *)
Module ExpensePatch.
Record t := mk {
  edited : option bool;
  material_name : option string;
  amount_ : option amount;
  payment_method : option string;
  advance_amount : option amount;
  used : option bool;
  description : option string;
  entry_date : option string
}.

Definition apply (u : t) (r : Expenses.row) : Expenses.row :=
  Expenses.mk
    (Expenses.id r) (Expenses.invoice_no r)
    (Sales.pick (material_name u) (Expenses.material_name r))
    (Sales.pick (amount_ u) (Expenses.amount_ r))
    (Sales.pick (payment_method u) (Expenses.payment_method r))
    (Sales.pick_opt (advance_amount u) (Expenses.advance_amount r))
    (Sales.pick (used u) (Expenses.used r))
    (Sales.pick_opt (description u) (Expenses.description r))
    (Sales.pick_opt (entry_date u) (Expenses.entry_date r))
    (Expenses.added_by r)
    (Sales.pick (edited u) (Expenses.edited r))
    (Expenses.created_at r).
End ExpensePatch.

Definition with_expenses (l : list Expenses.row) (s : store) : store :=
  mk_store (inventory s) (sales s) l (next_sale_id s) (next_expense_id s) (now s).

Definition expense_has_id (i : Z) (e : Expenses.row) : bool := Expenses.id e =? i.

(** [db.expenses.find_unique(where={"id": i})] *)
Definition expenses_find_unique (i : Z) : M (option Expenses.row) :=
  fun s => (inr (find (expense_has_id i) (expenses s)), s).

(** [db.expenses.update(where={"id": i}, data=u)] *)
Definition expenses_update (i : Z) (u : ExpensePatch.t) : M (option Expenses.row) :=
  fun s =>
    (inr (option_map (ExpensePatch.apply u) (find (expense_has_id i) (expenses s))),
     with_expenses (update_first (expense_has_id i) (ExpensePatch.apply u) (expenses s)) s).

(** [db.expenses.delete(where={"id": i})] *)
Definition expenses_delete (i : Z) : M (option Expenses.row) :=
  fun s =>
    (inr (find (expense_has_id i) (expenses s)),
     with_expenses (delete_first (expense_has_id i) (expenses s)) s).

(** [x if x else default] for an optional string: [None] and the empty
    string both give the default. *)
Definition or_current (x : option string) (current : string) : string :=
  match x with
  | Some (String c x') => String c x'
  | Some EmptyString => current
  | None => current
  end.

(** The ownership check of [update_expense] and [delete_expense]:
    [current_user.role == "staff" and expense_data.added_by != str(current_user.id)] *)
Definition not_own_expense (current_user : User.t) (e : Expenses.row) : bool :=
  String.eqb (User.role current_user) "staff"
  && negb (String.eqb (Expenses.added_by e) (User.id current_user)).

(** [update_expense]: the stored name is split, the parts the request names
    are replaced, and the two are joined again; [expense_update.entry_date]
    is read, and raises, as the last entry of [update_data].  After the
    write the handler looks the owner up under [int(updated_expense.added_by)],
    which raises [ValueError] for a string that is no number; of the user
    found only the display name is used, which is left out. *)
Definition update_expense (expense_id : Z) (expense_update : ExpenseUpdate.t)
    (current_user : User.t) : M Expenses.row :=
  try_except
    (expense_data <- expenses_find_unique expense_id ;;
     match expense_data with
     | None => raise NotFound
     | Some expense_data =>
         raise_if (not_own_expense current_user expense_data) PermissionDenied ;;
         let '(current_material_name, current_vendor_name) :=
           split_material_name (Expenses.material_name expense_data) in
         let new_material_name :=
           or_current (ExpenseUpdate.material_name expense_update)
                      current_material_name in
         let new_vendor_name :=
           or_current (ExpenseUpdate.vendor_name expense_update) current_vendor_name in
         entry_date <- entry_date_of expense_update ;;
         let update_data :=
           ExpensePatch.mk
             (Some true)
             (Some (combined_name new_material_name new_vendor_name))
             (ExpenseUpdate.amount_ expense_update)
             (ExpenseUpdate.payment_method expense_update)
             (ExpenseUpdate.advance_amount expense_update)
             (ExpenseUpdate.used expense_update)
             (ExpenseUpdate.description expense_update)
             entry_date in
         updated_expense <- expenses_update expense_id update_data ;;
         match updated_expense with
         | None => raise WriteFailed
         | Some updated_expense =>
             (if int_accepts (Expenses.added_by updated_expense)
              then ret tt
              else raise (Unhandled ValueError)) ;;
             ret updated_expense
         end
     end)
    answer_500.

(** [delete_expense] *)
Definition delete_expense (expense_id : Z) (current_user : User.t) : M unit :=
  expense_data <- expenses_find_unique expense_id ;;
  match expense_data with
  | None => raise NotFound
  | Some expense_data =>
      raise_if (not_own_expense current_user expense_data) PermissionDenied ;;
      deleted_expense <- expenses_delete expense_id ;;
      match deleted_expense with
      | None => raise NotFound
      | Some _ => ret tt
      end
  end.

(** The filter of [generate_expense_invoice_pdf]. *)
Definition expense_invoice_where (invoice_no : string) (current_user : User.t)
    (e : Expenses.row) : bool :=
  match Expenses.invoice_no e with
  | Some i => String.eqb i invoice_no
  | None => false
  end
  && (if String.eqb (User.role current_user) "staff"
      then String.eqb (Expenses.added_by e) (User.id current_user)
      else true).

(** [generate_expense_invoice_pdf] up to the call of the renderer. *)
Definition generate_expense_invoice_pdf (invoice_no : string)
    (current_user : User.t) (s : store) : failure + list Expenses.row :=
  let expenses_data :=
    order_asc Expenses.created_at
              (filter (expense_invoice_where invoice_no current_user) (expenses s)) in
  match expenses_data with
  | [] => inl NotFound
  | _ => inr expenses_data
  end.

(** ** [api/inventory.py]: update and delete *)

Module InventoryUpdate.
Record t := mk {
  product_name : option string;
  category : option string;
  cost_price : option amount;
  sale_price : option amount;
  quantity : option Z
}.
End InventoryUpdate.

(** The [data] dictionary of [db.inventory.update] as
    [update_inventory_product] builds it: [edited] is always set,
    [sale_price] is not a column. *)
Definition apply_inventory_update (product : InventoryUpdate.t) (r : Inventory.row)
  : Inventory.row :=
  Inventory.mk
    (Inventory.id r) (Inventory.invoice_no r)
    (Sales.pick (InventoryUpdate.product_name product) (Inventory.product_name r))
    (Sales.pick (InventoryUpdate.category product) (Inventory.category r))
    (Sales.pick (InventoryUpdate.cost_price product) (Inventory.cost_price r))
    (Sales.pick (InventoryUpdate.quantity product) (Inventory.quantity r))
    (Inventory.added_by r)
    true
    (Inventory.created_at r).

(** [update_inventory_product]: any principal may update any product. *)
Definition update_inventory_product (product_id : Z) (product : InventoryUpdate.t)
    (current_user : User.t) : M Inventory.row :=
  existing_product <- inventory_find_unique product_id ;;
  match existing_product with
  | None => raise NotFound
  | Some existing_product =>
      fun s =>
        (inr (apply_inventory_update product existing_product),
         with_inventory
           (update_first (has_id product_id) (apply_inventory_update product)
                         (inventory s)) s)
  end.

(** [delete_inventory_product]: any principal may delete any product. *)
Definition delete_inventory_product (product_id : Z) (current_user : User.t)
  : M unit :=
  existing_product <- inventory_find_unique product_id ;;
  match existing_product with
  | None => raise NotFound
  | Some _ =>
      fun s =>
        (inr tt, with_inventory (delete_first (has_id product_id) (inventory s)) s)
  end.

(** ** More of [api/reports.py]: the detail of a month *)

(** The entries of the dictionary [get_monthly_detailed_data] returns, less
    the owner names. *)
Module SaleLine.
Record t := mk {
  id : Z;
  invoice_no : string;
  customer_name : string;
  customer_address : string;
  customer_phone : string;
  product_name : string;
  category : string;
  quantity : Z;
  cost_price : amount;
  sale_price : amount;
  total_ : amount;
  payment_type : string;
  sold_by : string;
  edited : bool;
  created_at : datetime
}.
End SaleLine.

Module InventoryLine.
Record t := mk {
  id : Z;
  invoice_no : string;
  product_name : string;
  category : string;
  cost_price : amount;
  sale_price : amount;
  quantity : Z;
  total_value : amount;
  added_by : string;
  edited : bool;
  created_at : datetime
}.
End InventoryLine.

Module ExpenseLine.
Record t := mk {
  id : Z;
  invoice_no : string;
  material_name : string;
  vendor_name : string;
  amount_ : amount;
  payment_method : string;
  added_by : string;
  edited : bool;
  created_at : datetime
}.
End ExpenseLine.

Module MonthlyDetail.
Record t := mk {
  month_name : string;
  month_number : Z;
  year_ : Z;
  sales_ : list SaleLine.t;
  inventory_ : list InventoryLine.t;
  expenses_ : list ExpenseLine.t
}.
End MonthlyDetail.








(** * Vocabulary of the properties *)

(** The sum the specification writes: each row weighed by [f], added up
    from the right. *)
Definition total {A} (f : A -> amount) (l : list A) : amount :=
  fold_right (fun x acc => (f x + acc)%Qc) (Q2Qc 0) l.

(** On-hand quantity of product [i], if there is such a product. *)
Definition on_hand (i : Z) (s : store) : option Z :=
  option_map Inventory.quantity (find (has_id i) (inventory s)).

(** The quantity a batch asks of product [i], all its lines together. *)
Definition requested (i : Z) (items : list SaleItem.t) : Z :=
  fold_right (fun item acc =>
                if SaleItem.product_id item =? i
                then SaleItem.quantity item + acc else acc)
             0 items.

(** The fields of a line as the first loop of [create_bulk_sale] wants
    them: a positive product key, a positive quantity, a positive price. *)
Definition fields_ok (item : SaleItem.t) : Prop :=
  0 < SaleItem.product_id item
  /\ 0 < SaleItem.quantity item
  /\ (Q2Qc 0 < SaleItem.sale_price item)%Qc.




(** The product carries the name and category a sale row recorded. *)
Definition matches_sale (sale : Sales.row) (p : Inventory.row) : Prop :=
  Inventory.product_name p = Sales.product_name sale
  /\ Inventory.category p = Sales.category sale.

(** The columns of a sale row that no update may touch. *)
Definition sale_frame (r : Sales.row)
  : Z * option string * string * string * amount * string * datetime :=
  (Sales.id r, Sales.invoice_no r, Sales.product_name r, Sales.category r,
   Sales.cost_price r, Sales.sold_by r, Sales.created_at r).

(** The principal owns no sale line, or no expense line, under the
    invoice. *)
Definition owns_no_sale_line (inv : string) (u : User.t) (s : store) : Prop :=
  forall r, In r (sales s) ->
            ~ (Sales.invoice_no r = Some inv /\ Sales.sold_by r = User.id u).

Definition owns_no_expense_line (inv : string) (u : User.t) (s : store) : Prop :=
  forall e, In e (expenses s) ->
            ~ (Expenses.invoice_no e = Some inv /\ Expenses.added_by e = User.id u).

(** The sale and expense rows a principal's dashboard ranges over. *)
Definition visible_sales (current_user : User.t) (s : store) : list Sales.row :=
  filter (sales_where current_user) (sales s).

Definition visible_expenses (current_user : User.t) (s : store) : list Expenses.row :=
  filter (expenses_where current_user) (expenses s).

(** The balance due on a sale as the specification writes it: revenue less
    the advance stored on the row (nothing, when the column is null). *)
Definition balance_due (sale : Sales.row) : amount :=
  (times (Sales.sale_price sale) (Sales.quantity sale)
   - or_zero_opt (Sales.advance_amount sale))%Qc.

(** The bounds of month [m] of year [y]: its first day and the first day of
    the month after it. *)
Definition month_bounds (y m : Z) : datetime * datetime :=
  (mk_datetime y m 1 0,
   if m <? 12 then mk_datetime y (m + 1) 1 0 else mk_datetime (y + 1) 1 1 0).

(** The sales and the expenses entered in month [m] of year [y], and the
    profit of that month as the specification writes it: revenue less cost
    of goods less expenses, before any rounding. *)
Definition month_sales (y m : Z) (s : store) : list Sales.row :=
  filter (fun r => created_in (month_bounds y m) (Sales.created_at r)) (sales s).

Definition month_expense_rows (y m : Z) (s : store) : list Expenses.row :=
  filter (fun e => created_in (month_bounds y m) (Expenses.created_at e)) (expenses s).

Definition month_profit (y m : Z) (s : store) : amount :=
  (total (fun sale => times (Sales.sale_price sale) (Sales.quantity sale))
         (month_sales y m s)
   - total (fun sale => times (Sales.cost_price sale) (Sales.quantity sale))
           (month_sales y m s)
   - total Expenses.amount_ (month_expense_rows y m s))%Qc.

(** A whole number of hundredths. *)
Definition whole_cents (a : amount) : Prop := exists k : Z, a = Q2Qc (k # 100).

(** Every price and every expense amount of the store is a whole number of
    hundredths. *)
Definition priced_in_cents (s : store) : Prop :=
  Forall (fun r => whole_cents (Sales.sale_price r) /\ whole_cents (Sales.cost_price r))
         (sales s)
  /\ Forall (fun e => whole_cents (Expenses.amount_ e)) (expenses s).

(** * Principals, stores and requests of the examples *)

Definition clerk : User.t := User.mk "7" "Sana" "sana@example.com" "staff".
Definition stranger : User.t := User.mk "8" "Omar" "omar@example.com" "staff".
Definition manager : User.t := User.mk "1" "Nisa" "nisa@example.com" "admin".

Definition noon : datetime := mk_datetime 2024 3 9 43200000000.

(** Five chairs (key 1) and five tables (key 2), nothing sold yet. *)
Definition chair : Inventory.row :=
  Inventory.mk 1 None "Chair" "Wood" (Q2Qc 60) 5 "7" false noon.
Definition table : Inventory.row :=
  Inventory.mk 2 None "Table" "Wood" (Q2Qc 30) 5 "7" false noon.
Definition showroom : store := mk_store [chair; table] [] [] 1 1 noon.

Definition bulk_request (items : list SaleItem.t) : BulkSalesCreate.t :=
  BulkSalesCreate.mk "Customer" None None "1" (Q2Qc 0) items.

Definition one_table : list SaleItem.t := [SaleItem.mk 2 1 (Q2Qc 50)].

(** Products A (key 1) and B (key 2) at any cost price, five of each on
    hand, and a request for two of A at 100 and one of B at 50 under any
    customer and payment details. *)
Definition product_A (cost : amount) : Inventory.row :=
  Inventory.mk 1 None "A" "Furniture" cost 5 "1" false noon.
Definition product_B (cost : amount) : Inventory.row :=
  Inventory.mk 2 None "B" "Furniture" cost 5 "1" false noon.

Definition five_of_each (cost_A cost_B : amount) : store :=
  mk_store [product_A cost_A; product_B cost_B] [] [] 1 1 noon.

Definition two_A_one_B (header : BulkSalesCreate.t) : BulkSalesCreate.t :=
  BulkSalesCreate.mk
    (BulkSalesCreate.customer_name header)
    (BulkSalesCreate.customer_address header)
    (BulkSalesCreate.customer_phone header)
    (BulkSalesCreate.payment_type header)
    (BulkSalesCreate.advance_amount header)
    [SaleItem.mk 1 2 (Q2Qc 100); SaleItem.mk 2 1 (Q2Qc 50)].

(** A sale of one chair at 100 by [clerk], paid as [payment_type] with
    [advance] stored on the row. *)
Definition sale_of_100 (i : Z) (payment_type : string) (advance : Z) : Sales.row :=
  Sales.mk i (Some "INV-000007") "Customer" None None "Chair" "Wood" 1
           (Q2Qc 60) (Q2Qc 100) None payment_type (Some (of_int advance))
           "7" false noon.

Definition one_sale (r : Sales.row) : store := mk_store [] [r] [] 2 1 noon.

(** Two chairs sold by [clerk] on invoice INV-000007, and the store after
    that sale. *)
Definition sold_chairs : Sales.row :=
  Sales.mk 1 (Some "INV-000007") "Customer" None None "Chair" "Wood" 2
           (Q2Qc 60) (Q2Qc 100) None "1" (Some (Q2Qc 0)) "7" false noon.

Definition after_sale : store :=
  mk_store [Inventory.set_quantity 3 chair; table] [sold_chairs] [] 2 1 noon.


(** The manager's books: one chair sold at 100 (cost 60) and one expense of
    10, both entered by the manager (principal "1") in March 2024. *)
Definition managers_sale : Sales.row :=
  Sales.mk 1 (Some "INV-000001") "Customer" None None "Chair" "Wood" 1
           (Q2Qc 60) (Q2Qc 100) None "1" (Some (Q2Qc 0)) "1" false noon.
Definition managers_expense : Expenses.row :=
  Expenses.mk 1 None "Glue - Ali" (Q2Qc 10) "1" (Some (Q2Qc 0)) false None None
              "1" false noon.
Definition managers_books : store :=
  mk_store [chair] [managers_sale] [managers_expense] 2 2 noon.

(** * Vocabulary of the further properties *)

(** A listing is ordered newest first, or oldest first, when no entry is
    followed by a newer, or an older, one. *)
Definition newest_first {A} (created_at : A -> datetime) (l : list A) : Prop :=
  Sorted (fun a b => datetime_lt (created_at a) (created_at b) = false) l.

Definition oldest_first {A} (created_at : A -> datetime) (l : list A) : Prop :=
  Sorted (fun a b => datetime_lt (created_at b) (created_at a) = false) l.

(** Every sale row of the store is a line of invoice [inv], paid in advance
    ([payment_type] "2") with the same advance [a] stored on it. *)
Definition one_advance_invoice (inv : string) (a : amount) (s : store) : Prop :=
  Forall (fun r => Sales.invoice_no r = Some inv
                   /\ Sales.payment_type r = "2"
                   /\ Sales.advance_amount r = Some a)
         (sales s).

(** Three chairs sold under one invoice, each line marked as paid in
    advance with 50 stored on it. *)
Definition advance_line (i : Z) : Sales.row :=
  Sales.mk i (Some "INV-000009") "Customer" None None "Chair" "Wood" 1
           (Q2Qc 60) (Q2Qc 100) None "2" (Some (Q2Qc 50)) "7" false noon.

Definition advance_books : store :=
  mk_store [chair] [advance_line 1; advance_line 2; advance_line 3] [] 4 1 noon.

(** A request that only marks the expense as used. *)
Definition mark_used : ExpenseUpdate.t :=
  ExpenseUpdate.mk None None None None None (Some true) None.

(** Glue bought by [clerk] under invoice EXP-000008, and a store that holds
    nothing else. *)
Definition bought_glue : Expenses.row :=
  Expenses.mk 1 (Some "EXP-000008") "Glue - Ali" (Q2Qc 10) "1" (Some (Q2Qc 0))
              false None None "7" false noon.

Definition glue_bought : store := mk_store [] [] [bought_glue] 1 2 noon.

(** A store with one expense of [clerk] whose stored name is [stored]. *)
Definition one_expense (stored : string) : store :=
  mk_store [] []
           [Expenses.mk 1 None stored (Q2Qc 10) "1" (Some (Q2Qc 0)) false None None
                        "7" false noon]
           1 2 noon.

(** A timestamp the calendar allows, as far as comparisons look at it: a
    month in 1..12, a day from 1 on, a time of day from midnight on. *)
Definition well_formed (t : datetime) : Prop :=
  1 <= month t <= 12 /\ 1 <= day t /\ 0 <= time_of_day t.

(** Timestamp [t] lies in month [m] of year [y]; in year [y]. *)
Definition in_month (y m : Z) (t : datetime) : bool :=
  (year t =? y) && (month t =? m).

Definition in_year (y : Z) (t : datetime) : bool := year t =? y.

(** Every sale and every expense of the store carries a well-formed
    timestamp. *)
Definition dated (s : store) : Prop :=
  Forall (fun r => well_formed (Sales.created_at r)) (sales s)
  /\ Forall (fun e => well_formed (Expenses.created_at e)) (expenses s).

(** The sales, and the expenses, entered in year [y]. *)
Definition year_sales (y : Z) (s : store) : list Sales.row :=
  filter (fun r => in_year y (Sales.created_at r)) (sales s).

Definition year_expenses (y : Z) (s : store) : list Expenses.row :=
  filter (fun e => in_year y (Expenses.created_at e)) (expenses s).

(** The update request [product] with its [sale_price] replaced. *)
Definition with_sale_price (sale_price : option amount) (product : InventoryUpdate.t)
  : InventoryUpdate.t :=
  InventoryUpdate.mk (InventoryUpdate.product_name product)
                     (InventoryUpdate.category product)
                     (InventoryUpdate.cost_price product)
                     sale_price
                     (InventoryUpdate.quantity product).

(** The figures of the dashboard that are computed from sales and expenses. *)
Definition sales_figures (d : DashboardStats.t)
  : amount * amount * amount * amount * nat * nat :=
  (DashboardStats.total_sales d, DashboardStats.total_profit d,
   DashboardStats.total_expenses d, DashboardStats.total_pending d,
   DashboardStats.sales_count d, DashboardStats.expenses_count d).

(** Reading an invoice number back: the number written after the four
    characters of the prefix, if what follows them is a string of digits. *)
Definition invoice_value (invoice_no : string) : option Z :=
  option_map Z.of_uint (NilEmpty.uint_of_string (drop 4 invoice_no)).

(** * Properties *)

(** ** Sums *)

Section Sums.
Local Open Scope Qc_scope.

Lemma fold_left_Qcplus (l : list amount) (a : amount) :
  fold_left Qcplus l a = a + py_sum l.
Proof.
  unfold py_sum. revert a.
  induction l as [|x l IH]; intros a; simpl.
  - now rewrite Qcplus_0_r.
  - rewrite IH, (IH (Q2Qc 0 + x)). ring.
Qed.

Lemma py_sum_nil : py_sum [] = Q2Qc 0.
Proof. reflexivity. Qed.

Lemma py_sum_cons (x : amount) (l : list amount) :
  py_sum (x :: l) = x + py_sum l.
Proof.
  unfold py_sum at 1. simpl. rewrite fold_left_Qcplus. ring.
Qed.

Lemma py_sum_app (l1 l2 : list amount) :
  py_sum (l1 ++ l2) = py_sum l1 + py_sum l2.
Proof.
  induction l1 as [|x l1 IH]; simpl.
  - rewrite py_sum_nil. ring.
  - rewrite !py_sum_cons, IH. ring.
Qed.

End Sums.

Lemma py_sum_total {A} (f : A -> amount) (l : list A) :
  py_sum (map f l) = total f l.
Proof.
  induction l as [|x l IH]; simpl.
  - reflexivity.
  - now rewrite py_sum_cons, IH.
Qed.

(** ** The store under the monad *)

Lemma bind_inr {A B} (m : M A) (k : A -> M B) (s s1 : store) (a : A) :
  m s = (inr a, s1) -> bind m k s = k a s1.
Proof. unfold bind. now intros ->. Qed.

Lemma bind_inl {A B} (m : M A) (k : A -> M B) (s s1 : store) (e : failure) :
  m s = (inl e, s1) -> bind m k s = (inl e, s1).
Proof. unfold bind. now intros ->. Qed.

Lemma for_each_fails {A B} (body : A -> M B) (x : A) (l : list A) (s s1 : store)
    (e : failure) :
  body x s = (inl e, s1) -> for_each body (x :: l) s = (inl e, s1).
Proof. intros H. cbn [for_each]. now rewrite (bind_inl _ _ _ _ _ H). Qed.

(** The clauses of a handler let an [HTTPException] pass and hand any other
    exception to the clause. *)
Lemma try_except_caught {A} (body : M A) (clause : exception -> M A)
    (s s1 : store) (e : exception) :
  body s = (inl (Unhandled e), s1) -> try_except body clause s = clause e s1.
Proof. unfold try_except. now intros ->. Qed.

Lemma try_except_passes {A} (body : M A) (clause : exception -> M A)
    (s : store) :
  (forall e, fst (body s) <> inl (Unhandled e)) ->
  try_except body clause s = body s.
Proof.
  unfold try_except. intros H.
  destruct (body s) as [[f|a] s1]; [|reflexivity].
  destruct f; try reflexivity. now elim (H e).
Qed.

Lemma has_id_set_quantity (i q : Z) (r : Inventory.row) :
  has_id i (Inventory.set_quantity q r) = has_id i r.
Proof. reflexivity. Qed.

Lemma find_update_first_same (i q : Z) (l : list Inventory.row) :
  find (has_id i) (update_first (has_id i) (Inventory.set_quantity q) l)
  = option_map (Inventory.set_quantity q) (find (has_id i) l).
Proof.
  induction l as [|r l IH]; simpl; [reflexivity|].
  destruct (has_id i r) eqn:E; simpl.
  - now rewrite has_id_set_quantity, E.
  - now rewrite E.
Qed.

Lemma find_update_first_other (i j q : Z) (l : list Inventory.row) :
  i <> j ->
  find (has_id i) (update_first (has_id j) (Inventory.set_quantity q) l)
  = find (has_id i) l.
Proof.
  intros Hij.
  induction l as [|r l IH]; simpl; [reflexivity|].
  destruct (has_id j r) eqn:Ej; simpl.
  - rewrite has_id_set_quantity.
    destruct (has_id i r) eqn:Ei; [|reflexivity].
    unfold has_id in *. lia.
  - destruct (has_id i r); [reflexivity | exact IH].
Qed.

(** The effect of one debit (or credit) on every on-hand quantity. *)
Lemma on_hand_update (i j q : Z) (s : store) :
  on_hand i (snd (inventory_update_quantity j q s))
  = if i =? j then option_map (fun _ => q) (on_hand i s) else on_hand i s.
Proof.
  unfold on_hand, inventory_update_quantity. simpl.
  destruct (Z.eqb_spec i j) as [->|Hne].
  - rewrite find_update_first_same.
    now destruct (find (has_id j) (inventory s)).
  - now rewrite find_update_first_other.
Qed.

(** ** Handlers that read [entry_date] *)


(** One round of the second loop of [create_bulk_sale]. *)
Lemma bulk_sale_item_cases (invoice_no : string) (sale_data : BulkSalesCreate.t)
    (u : User.t) (item : SaleItem.t) (s : store) :
  bulk_sale_item invoice_no sale_data u item s
  = match find (has_id (SaleItem.product_id item)) (inventory s) with
    | None => (inl NotFound, s)
    | Some p =>
        if Inventory.quantity p <? SaleItem.quantity item
        then (inl (InsufficientStock (Inventory.quantity p)
                                     (SaleItem.quantity item)), s)
        else (inl (Unhandled AttributeError), s)
    end.
Proof.
  unfold bulk_sale_item, bind, inventory_find_unique, raise_if.
  destruct (find (has_id (SaleItem.product_id item)) (inventory s)) as [p|];
    [|reflexivity].
  now destruct (Inventory.quantity p <? SaleItem.quantity item).
Qed.

(** One round of the loop of [add_sale_items_to_invoice]. *)
Lemma append_sale_item_cases (invoice_no : string) (sale_data : BulkSalesCreate.t)
    (u : User.t) (adv : amount) (item : SaleItem.t) (s : store) :
  append_sale_item invoice_no sale_data u adv item s
  = match find (has_id (SaleItem.product_id item)) (inventory s) with
    | None => (inl NotFound, s)
    | Some p =>
        if Inventory.quantity p <? SaleItem.quantity item
        then (inl (InsufficientStock (Inventory.quantity p)
                                     (SaleItem.quantity item)), s)
        else (inl (Unhandled AttributeError), s)
    end.
Proof.
  unfold append_sale_item, bind, inventory_find_unique, raise_if.
  destruct (find (has_id (SaleItem.product_id item)) (inventory s)) as [p|];
    [|reflexivity].
  now destruct (Inventory.quantity p <? SaleItem.quantity item).
Qed.

(** The first loop of [create_bulk_sale] touches nothing and can only fail
    with a validation error. *)
Lemma validate_item_run (item : SaleItem.t) (s : store) :
  validate_item item s = (inr tt, s)
  \/ validate_item item s = (inl ValidationError, s).
Proof.
  unfold validate_item, raise_if, bind, raise, ret.
  repeat match goal with
         | |- context [if ?c then _ else _] => destruct c
         end; auto.
Qed.

Lemma validate_items_run (items : list SaleItem.t) (s : store) :
  (exists l, for_each validate_item items s = (inr l, s))
  \/ for_each validate_item items s = (inl ValidationError, s).
Proof.
  induction items as [|item items IH]; cbn [for_each].
  - left. now exists [].
  - destruct (validate_item_run item s) as [Hok|Hbad].
    + rewrite (bind_inr _ _ _ _ _ Hok). unfold bind.
      destruct IH as [[l ->]| ->]; [left; now eexists | now right].
    + rewrite (bind_inl _ _ _ _ _ Hbad). now right.
Qed.

(** [create_bulk_sale]: after the validation of the fields the outcome is
    that of the first line, and nothing is written. *)
Lemma create_bulk_sale_cases (seq : sequence_reply) (sale_data : BulkSalesCreate.t)
    (u : User.t) (s : store) :
  create_bulk_sale seq sale_data u s
  = match BulkSalesCreate.items sale_data with
    | [] => (inl ValidationError, s)
    | item :: rest =>
        match fst (for_each validate_item (item :: rest) s) with
        | inl _ => (inl ValidationError, s)
        | inr _ =>
            match find (has_id (SaleItem.product_id item)) (inventory s) with
            | None => (inl NotFound, s)
            | Some p =>
                if Inventory.quantity p <? SaleItem.quantity item
                then (inl (InsufficientStock (Inventory.quantity p)
                                             (SaleItem.quantity item)), s)
                else (inl ServerError, s)
            end
        end
    end.
Proof.
  unfold create_bulk_sale, try_except.
  destruct (BulkSalesCreate.items sale_data) as [|item rest]; [reflexivity|].
  destruct (validate_items_run (item :: rest) s) as [[l Hok]|Hbad].
  - rewrite (bind_inr _ _ _ _ _ Hok), Hok. cbn [fst].
    pose proof (bulk_sale_item_cases (invoice_number seq) sale_data u item s) as Hitem.
    destruct (find (has_id (SaleItem.product_id item)) (inventory s)) as [p|].
    + destruct (Inventory.quantity p <? SaleItem.quantity item);
        now rewrite (for_each_fails _ _ _ _ _ _ Hitem).
    + now rewrite (for_each_fails _ _ _ _ _ _ Hitem).
  - rewrite (bind_inl _ _ _ _ _ Hbad), Hbad. reflexivity.
Qed.

(** [add_sale_items_to_invoice]: the item list, then the ownership of the
    invoice, then the first line; the clause that should answer 500 raises
    [NameError] itself. *)
Lemma add_sale_items_cases (inv : string) (sale_data : BulkSalesCreate.t)
    (u : User.t) (s : store) :
  add_sale_items_to_invoice inv sale_data u s
  = match BulkSalesCreate.items sale_data with
    | [] => (inl ValidationError, s)
    | item :: rest =>
        match (if String.eqb (User.role u) "staff"
               then find (sale_on_invoice_by inv (User.id u)) (sales s)
               else None),
              String.eqb (User.role u) "staff" with
        | None, true => (inl PermissionDenied, s)
        | _, _ =>
            match find (has_id (SaleItem.product_id item)) (inventory s) with
            | None => (inl NotFound, s)
            | Some p =>
                if Inventory.quantity p <? SaleItem.quantity item
                then (inl (InsufficientStock (Inventory.quantity p)
                                             (SaleItem.quantity item)), s)
                else (inl (Unhandled NameError), s)
            end
        end
    end.
Proof.
  unfold add_sale_items_to_invoice, try_except.
  destruct (BulkSalesCreate.items sale_data) as [|item rest]; [reflexivity|].
  assert (Hloop : forall adv,
    match for_each (append_sale_item inv sale_data u adv) (item :: rest) s with
    | (inl (Unhandled e), s') => @format_exc_unbound (list Sales.row) e s'
    | out => out
    end
    = match find (has_id (SaleItem.product_id item)) (inventory s) with
      | None => (inl NotFound, s)
      | Some p =>
          if Inventory.quantity p <? SaleItem.quantity item
          then (inl (InsufficientStock (Inventory.quantity p)
                                       (SaleItem.quantity item)), s)
          else (inl (Unhandled NameError), s)
      end).
  { intros adv.
    pose proof (append_sale_item_cases inv sale_data u adv item s) as Hitem.
    destruct (find (has_id (SaleItem.product_id item)) (inventory s)) as [p|].
    - destruct (Inventory.quantity p <? SaleItem.quantity item);
        now rewrite (for_each_fails _ _ _ _ _ _ Hitem).
    - now rewrite (for_each_fails _ _ _ _ _ _ Hitem). }
  unfold bind at 1.
  destruct (String.eqb (User.role u) "staff").
  - unfold bind at 1, sales_find_first.
    destruct (find (sale_on_invoice_by inv (User.id u)) (sales s));
      cbn [ret raise]; [apply Hloop | reflexivity].
  - cbn [ret]. apply Hloop.
Qed.

(** [create_expense] answers 500 to every request. *)
Lemma create_expense_cases (expense : ExpenseCreate.t) (u : User.t) (s : store) :
  create_expense expense u s = (inl ServerError, s).
Proof. reflexivity. Qed.


Lemma add_expense_items_cases (inv : string) (expense_data : BulkExpenseCreate.t)
    (u : User.t) (s : store) :
  add_expense_items_to_invoice inv expense_data u s
  = match BulkExpenseCreate.items expense_data with
    | [] => (inl ValidationError, s)
    | _ :: _ =>
        match (if String.eqb (User.role u) "staff"
               then find (expense_on_invoice_by inv (User.id u)) (expenses s)
               else None),
              String.eqb (User.role u) "staff" with
        | None, true => (inl PermissionDenied, s)
        | _, _ => (inl ServerError, s)
        end
    end.
Proof.
  unfold add_expense_items_to_invoice, try_except.
  destruct (BulkExpenseCreate.items expense_data) as [|item rest]; [reflexivity|].
  unfold bind at 1.
  destruct (String.eqb (User.role u) "staff").
  - unfold bind at 1, expenses_find_first.
    now destruct (find (expense_on_invoice_by inv (User.id u)) (expenses s)).
  - reflexivity.
Qed.

(** [update_expense]: a request for a row that exists and that the caller
    may edit is answered 500 before the write. *)
Lemma update_expense_cases (expense_id : Z) (upd : ExpenseUpdate.t) (u : User.t)
    (s : store) :
  update_expense expense_id upd u s
  = match find (expense_has_id expense_id) (expenses s) with
    | None => (inl NotFound, s)
    | Some e =>
        if not_own_expense u e
        then (inl PermissionDenied, s)
        else (inl ServerError, s)
    end.
Proof.
  unfold update_expense, try_except, bind, expenses_find_unique, raise_if.
  destruct (find (expense_has_id expense_id) (expenses s)) as [e|]; [|reflexivity].
  destruct (not_own_expense u e); [reflexivity|].
  now destruct (split_material_name (Expenses.material_name e)).
Qed.

(** [update_sale]: a request for a row that exists and that the caller may
    edit is answered 500 before the write. *)
Lemma update_sale_cases (sale_id : Z) (upd : SalesUpdate.t) (u : User.t) (s : store) :
  update_sale sale_id upd u s
  = match find (sale_has_id sale_id) (sales s) with
    | None => (inl NotFound, s)
    | Some existing =>
        if not_permitted u existing
        then (inl PermissionDenied, s)
        else (inl ServerError, s)
    end.
Proof.
  unfold update_sale, try_except, bind, sales_find_unique, raise_if.
  destruct (find (sale_has_id sale_id) (sales s)) as [existing|]; [|reflexivity].
  now destruct (not_permitted u existing).
Qed.

(** ** A bulk sale of two products *)

(** C6: selling two of A at 100 and one of B at 50 out of five of each.  The
    request passes the validation of its fields and the stock check of its
    first line, and is then answered 500: no sale row is written, five of A
    and five of B stay on hand, and the seller's total revenue stays 0.
    This for any reply of the sequence, any seller, any cost prices and any
    customer and payment details. *)
Theorem bulk_sale_two_products_refused (seq : sequence_reply)
    (header : BulkSalesCreate.t) (seller : User.t) (cost_A cost_B : amount) :
  let '(r, s') :=
    create_bulk_sale seq (two_A_one_B header) seller (five_of_each cost_A cost_B) in
  r = inl ServerError
  /\ status_code ServerError = 500
  /\ s' = five_of_each cost_A cost_B
  /\ sales s' = []
  /\ on_hand 1 s' = Some 5
  /\ on_hand 2 s' = Some 5
  /\ DashboardStats.total_sales (get_dashboard_stats seller s') = Q2Qc 0.
Proof.
  rewrite create_bulk_sale_cases. cbn. repeat split.
Qed.

(** ** Pending balance *)

Lemma or_zero_id (a : amount) : or_zero a = a.
Proof.
  unfold or_zero, truthy_amount.
  destruct (Qc_eq_bool a (Q2Qc 0)) eqn:E; simpl; [|reflexivity].
  symmetry. now apply Qc_eq_bool_correct.
Qed.

Lemma balance_due_code (sale : Sales.row) :
  (revenue sale - advance_paid sale)%Qc = balance_due sale.
Proof.
  unfold balance_due, revenue, advance_paid, or_zero_opt.
  destruct (Sales.advance_amount sale); [now rewrite or_zero_id | reflexivity].
Qed.

Lemma total_pending_unfold (u : User.t) (s : store) :
  DashboardStats.total_pending (get_dashboard_stats u s)
  = total balance_due (filter is_advance (visible_sales u s)).
Proof.
  unfold get_dashboard_stats, visible_sales. cbn [DashboardStats.total_pending].
  rewrite <- py_sum_total. f_equal.
  apply map_ext. intros sale. apply balance_due_code.
Qed.

(** C5: the dashboard's [total_pending] is the sum, over the visible sales
    whose payment type is ADVANCE (["2"]), of sale_price x quantity less the
    stored advance; and a sale whose payment type is FULL (["1"]) adds
    nothing to it, whatever advance is stored on it and wherever it sits in
    the table. *)
Theorem total_pending_advance_only :
  (forall (u : User.t) (s : store),
      DashboardStats.total_pending (get_dashboard_stats u s)
      = total balance_due
              (filter (fun sale => String.eqb (Sales.payment_type sale) "2")
                      (visible_sales u s)))
  /\
  (forall (u : User.t) (s : store) (before after : list Sales.row) (sale : Sales.row),
      Sales.payment_type sale = "1" ->
      DashboardStats.total_pending
        (get_dashboard_stats u (with_sales (before ++ sale :: after) s))
      = DashboardStats.total_pending
          (get_dashboard_stats u (with_sales (before ++ after) s))).
Proof.
  split.
  - intros u s. apply total_pending_unfold.
  - intros u s before after sale Hfull.
    rewrite !total_pending_unfold. unfold visible_sales. cbn [sales with_sales].
    rewrite !filter_app. cbn [filter].
    destruct (sales_where u sale); [|reflexivity].
    rewrite ?filter_app. cbn [filter].
    unfold is_advance at 2. rewrite Hfull. reflexivity.
Qed.

Lemma total_pending_advance_only_witness :
  DashboardStats.total_pending
    (get_dashboard_stats clerk (with_sales ([] ++ sale_of_100 1 "1" 30 :: []) (one_sale (sale_of_100 1 "1" 30))))
  = DashboardStats.total_pending
      (get_dashboard_stats clerk (with_sales ([] ++ []) (one_sale (sale_of_100 1 "1" 30)))).
Proof.
  apply (proj2 total_pending_advance_only). reflexivity.
Defined.

(** An ADVANCE sale with 30 paid against a revenue of 100 leaves 70 pending;
    the same row marked FULL leaves nothing pending. *)
Example pending_70 :
  DashboardStats.total_pending (get_dashboard_stats clerk (one_sale (sale_of_100 1 "2" 30)))
  = Q2Qc 70
  /\ DashboardStats.total_pending (get_dashboard_stats clerk (one_sale (sale_of_100 1 "1" 30)))
     = Q2Qc 0.
Proof. split; apply Qc_is_canon; reflexivity. Qed.

(** ** Updating a sale *)

(** The [data] of the update has no key for the columns of the frame. *)
Lemma sale_frame_apply_patch (u : Sales.patch) (r : Sales.row) :
  sale_frame (Sales.apply_patch u r) = sale_frame r.
Proof. reflexivity. Qed.

(** C10: whatever the request and whoever sends it, [update_sale] leaves the
    inventory table as it is (so no product's quantity changes, also when the
    sale's quantity does), leaves the expenses as they are, keeps the number
    and order of the sale rows, changes no sale row other than the one with
    the given key, and on every sale row keeps [id], [invoice_no],
    [product_name], [category], [cost_price], [sold_by] and [created_at]. *)
Theorem update_sale_frame (sale_id : Z) (sale : SalesUpdate.t) (u : User.t) (s : store) :
  let '(_, s') := update_sale sale_id sale u s in
  inventory s' = inventory s
  /\ expenses s' = expenses s
  /\ Forall2 (fun old new =>
                sale_frame new = sale_frame old
                /\ (Sales.id old <> sale_id -> new = old))
             (sales s) (sales s').
Proof.
  assert (Hsame : Forall2 (fun old new =>
                sale_frame new = sale_frame old
                /\ (Sales.id old <> sale_id -> new = old)) (sales s) (sales s)).
  { induction (sales s); constructor; auto. }
  rewrite update_sale_cases.
  destruct (find (sale_has_id sale_id) (sales s)) as [existing|];
    [destruct (not_permitted u existing)|]; now repeat split.
Qed.

(** ** Bulk sales and the stock ledger *)

Lemma positive_Z_check (n : Z) :
  (negb (truthy_Z n) || (n <=? 0))%bool = false <-> 0 < n.
Proof.
  unfold truthy_Z. rewrite orb_false_iff, negb_involutive.
  rewrite Z.eqb_neq, Z.leb_gt. lia.
Qed.

Lemma positive_amount_check (a : amount) :
  (negb (truthy_amount a) || amount_le0 a)%bool = false <-> (Q2Qc 0 < a)%Qc.
Proof.
  unfold truthy_amount, amount_le0. rewrite orb_false_iff, negb_involutive.
  assert (Hle : Qle_bool (this a) 0 = false <-> (Q2Qc 0 < a)%Qc).
  { unfold Qclt. change (this (Q2Qc 0)) with (0 # 1)%Q.
    destruct (Qle_bool (this a) 0) eqn:E.
    - apply Qle_bool_iff in E. split; [discriminate|].
      intros Hlt. exfalso. exact (Qlt_not_le _ _ Hlt E).
    - split; [|reflexivity]. intros _. apply Qnot_le_lt. intros Hle.
      apply Qle_bool_iff in Hle. congruence. }
  rewrite Hle. split; [now intros [_ H]|].
  intros Hlt. split; [|exact Hlt].
  destruct (Qc_eq_bool a (Q2Qc 0)) eqn:E; [|reflexivity].
  apply Qc_eq_bool_correct in E. subst a. now elim (Qlt_irrefl _ Hlt).
Qed.

Lemma validate_item_ok (item : SaleItem.t) (s : store) :
  validate_item item s = (inr tt, s) <-> fields_ok item.
Proof.
  unfold fields_ok.
  rewrite <- (positive_Z_check (SaleItem.product_id item)),
          <- (positive_Z_check (SaleItem.quantity item)),
          <- (positive_amount_check (SaleItem.sale_price item)).
  unfold validate_item, raise_if, bind, raise, ret.
  destruct (negb (truthy_Z (SaleItem.product_id item))
            || (SaleItem.product_id item <=? 0))%bool;
    [split; [discriminate | now intros [? _]]|].
  destruct (negb (truthy_Z (SaleItem.quantity item))
            || (SaleItem.quantity item <=? 0))%bool;
    [split; [discriminate | now intros (_ & ? & _)]|].
  destruct (negb (truthy_amount (SaleItem.sale_price item))
            || amount_le0 (SaleItem.sale_price item))%bool;
    [split; [discriminate | now intros (_ & _ & ?)]|].
  now split.
Qed.

Lemma validate_items_ok (items : list SaleItem.t) (s : store) :
  Forall fields_ok items ->
  exists l, for_each validate_item items s = (inr l, s).
Proof.
  induction 1 as [|item items Hitem _ [l IH]]; cbn [for_each].
  - now exists [].
  - apply (validate_item_ok item s) in Hitem.
    rewrite (bind_inr _ _ _ _ _ Hitem), (bind_inr _ _ _ _ _ IH). now eexists.
Qed.

Lemma validate_items_bad (items : list SaleItem.t) (s : store) :
  Exists (fun item => ~ fields_ok item) items ->
  for_each validate_item items s = (inl ValidationError, s).
Proof.
  induction 1 as [item items Hitem|item items _ IH]; cbn [for_each].
  - destruct (validate_item_run item s) as [Hok|Hbad].
    + now apply validate_item_ok in Hok.
    + now rewrite (bind_inl _ _ _ _ _ Hbad).
  - destruct (validate_item_run item s) as [Hok|Hbad].
    + now rewrite (bind_inr _ _ _ _ _ Hok), (bind_inl _ _ _ _ _ IH).
    + now rewrite (bind_inl _ _ _ _ _ Hbad).
Qed.

(** Two chairs, then ten tables, out of five of each: the line of the
    tables is short of stock, yet the request is not refused for it.  The
    first line passes its check and the handler goes on to write it; the
    second line is never looked at.  Three chairs twice: the batch asks six
    of five, yet each line is looked at on its own and the first passes. *)
Lemma bulk_sale_shortage_goes_unseen :
  (let items := [SaleItem.mk 1 2 (Q2Qc 100); SaleItem.mk 2 10 (Q2Qc 50)] in
   let '(r, s') :=
     create_bulk_sale (Rows [Some 7]) (bulk_request items) clerk showroom in
   on_hand 2 showroom = Some 5
   /\ requested 2 items = 10
   /\ r = inl ServerError
   /\ forall available wanted, r <> inl (InsufficientStock available wanted))
  /\
  (let items := [SaleItem.mk 1 3 (Q2Qc 100); SaleItem.mk 1 3 (Q2Qc 100)] in
   let '(r, s') :=
     create_bulk_sale (Rows [Some 7]) (bulk_request items) clerk showroom in
   on_hand 1 showroom = Some 5
   /\ requested 1 items = 6
   /\ r = inl ServerError
   /\ forall available wanted, r <> inl (InsufficientStock available wanted)).
Proof.
  split; cbv zeta; rewrite create_bulk_sale_cases; cbn; repeat split; discriminate.
Qed.

(** C1, as the code has it: [create_bulk_sale] validates the fields of
    every item first and then takes the lines in request order, checking
    each on its own against what is on hand of its product.
    - A request with no item, or with an item whose fields are refused,
      fails with a validation error and changes nothing.
    - With the fields in order, a first line that names no product fails
      with [NotFound], and a first line that asks for more than is on hand
      fails with [InsufficientStock]; either way nothing has changed,
      whatever lines follow.
    - A failure with [InsufficientStock] comes from a line of the request
      that asks for more than its product has on hand: the two numbers it
      reports are that quantity on hand and the quantity of that line. *)
Theorem bulk_sale_line_by_line (seq : sequence_reply) (sale_data : BulkSalesCreate.t)
    (u : User.t) (s : store) :
  let items := BulkSalesCreate.items sale_data in
  let '(r, s') := create_bulk_sale seq sale_data u s in
  ((items = [] \/ Exists (fun item => ~ fields_ok item) items) ->
   r = inl ValidationError /\ s' = s)
  /\ (forall item rest,
         items = item :: rest -> Forall fields_ok items ->
         match find (has_id (SaleItem.product_id item)) (inventory s) with
         | None => r = inl NotFound /\ s' = s
         | Some p =>
             Inventory.quantity p < SaleItem.quantity item ->
             r = inl (InsufficientStock (Inventory.quantity p)
                                        (SaleItem.quantity item))
             /\ s' = s
         end)
  /\ (forall available wanted,
         r = inl (InsufficientStock available wanted) ->
         exists item p,
           In item items
           /\ find (has_id (SaleItem.product_id item)) (inventory s') = Some p
           /\ Inventory.quantity p = available
           /\ SaleItem.quantity item = wanted
           /\ available < wanted).
Proof.
  cbv zeta. rewrite create_bulk_sale_cases.
  destruct (BulkSalesCreate.items sale_data) as [|item rest] eqn:Hitems.
  { split; [now split|]. split; [discriminate | intros a w [=]]. }
  destruct (for_each validate_item (item :: rest) s) as [[e|l] s1] eqn:Hval;
    cbn [fst].
  - split; [now split|]. split; [|intros a w [=]].
    intros item0 rest0 _ Hok.
    destruct (validate_items_ok _ s Hok) as [l Hl]. congruence.
  - assert (Hgood : ~ Exists (fun item => ~ fields_ok item) (item :: rest)).
    { intros Hbad. apply (validate_items_bad _ s) in Hbad. congruence. }
    destruct (find (has_id (SaleItem.product_id item)) (inventory s)) as [p|] eqn:Hp.
    + destruct (Z.ltb_spec (Inventory.quantity p) (SaleItem.quantity item)) as [Hlt|Hge].
      * split; [intros [H|H]; [discriminate H | now elim Hgood]|].
        split.
        -- intros item0 rest0 [= <- <-] _. rewrite Hp. now split.
        -- intros a w [= <- <-]. exists item, p. repeat split; auto. now left.
      * split; [intros [H|H]; [discriminate H | now elim Hgood]|].
        split; [|intros a w [=]].
        intros item0 rest0 [= <- <-] _. rewrite Hp. lia.
    + split; [intros [H|H]; [discriminate H | now elim Hgood]|].
      split; [|intros a w [=]].
      intros item0 rest0 [= <- <-] _. rewrite Hp. now split.
Qed.

(** ** Deleting a sale, with and without restoring stock *)

Section FirstMatch.
Context {A : Type} (p : A -> bool).

Lemma find_first_split (l : list A) (x : A) :
  find p l = Some x ->
  exists before after,
    l = before ++ x :: after /\ Forall (fun y => p y = false) before /\ p x = true.
Proof.
  induction l as [|y l IH]; simpl; [discriminate|].
  destruct (p y) eqn:E.
  - intros [= ->]. exists [], l. repeat split; auto.
  - intros H. destruct (IH H) as (before & after & -> & Hb & Hx).
    exists (y :: before), after. repeat split; auto.
Qed.

Lemma update_first_split (f : A -> A) (before after : list A) (x : A) :
  Forall (fun y => p y = false) before -> p x = true ->
  update_first p f (before ++ x :: after) = before ++ f x :: after.
Proof.
  intros Hb Hx. induction Hb as [|y before Hy Hb IH]; simpl.
  - now rewrite Hx.
  - now rewrite Hy, IH.
Qed.

Lemma delete_first_split (before after : list A) (x : A) :
  Forall (fun y => p y = false) before -> p x = true ->
  delete_first p (before ++ x :: after) = before ++ after.
Proof.
  intros Hb Hx. induction Hb as [|y before Hy Hb IH]; simpl.
  - now rewrite Hx.
  - now rewrite Hy, IH.
Qed.
End FirstMatch.

(** With [id] a key of the inventory, no row before a given one shares its
    key. *)
Lemma key_not_before (before after : list Inventory.row) (x : Inventory.row) :
  NoDup (map Inventory.id (before ++ x :: after)) ->
  Forall (fun y => has_id (Inventory.id x) y = false) before.
Proof.
  intros Hnd. apply Forall_forall. intros y Hy.
  unfold has_id. apply Z.eqb_neq. intros Heq.
  rewrite map_app in Hnd. simpl in Hnd.
  apply NoDup_remove_2 in Hnd. apply Hnd.
  apply in_or_app. left. rewrite <- Heq. now apply in_map.
Qed.

Lemma same_product_spec (sale : Sales.row) (p : Inventory.row) :
  same_product (Sales.product_name sale) (Sales.category sale) p = true
  <-> matches_sale sale p.
Proof.
  unfold same_product, matches_sale.
  now rewrite andb_true_iff, !String.eqb_eq.
Qed.

(** C8: a delete with [restore_inventory] set, of a sale that exists and
    that the caller may delete, with [id] a key of the inventory table.
    The request succeeds and removes the sale row.  If some product has the
    sale's [product_name] and [category], the first such product gets the
    sale's quantity added and nothing else in the inventory changes; if none
    has, the inventory is left as it is. *)
Theorem delete_sale_restores_stock (sale_id : Z) (u : User.t) (s : store)
    (sale : Sales.row) :
  NoDup (map Inventory.id (inventory s)) ->
  find (sale_has_id sale_id) (sales s) = Some sale ->
  not_permitted u sale = false ->
  let '(r, s') := delete_sale sale_id true u s in
  r = inr tt
  /\ (exists before after,
         sales s = before ++ sale :: after /\ sales s' = before ++ after)
  /\ ((exists p, In p (inventory s) /\ matches_sale sale p) ->
      exists before p after,
        inventory s = before ++ p :: after
        /\ Forall (fun q => ~ matches_sale sale q) before
        /\ matches_sale sale p
        /\ inventory s'
           = before
               ++ Inventory.set_quantity (Inventory.quantity p + Sales.quantity sale) p
               :: after)
  /\ ((forall p, In p (inventory s) -> ~ matches_sale sale p) ->
      inventory s' = inventory s).
Proof.
  intros Hkey Hsale Hperm.
  destruct (find_first_split _ _ _ Hsale) as (sb & sa & Hs & Hsb & Hsx).
  unfold delete_sale, bind, sales_find_unique, raise_if.
  rewrite Hsale, Hperm. cbn.
  destruct (find (same_product (Sales.product_name sale) (Sales.category sale))
                 (inventory s)) as [p|] eqn:Hp; cbn;
    rewrite ?Hsale; cbn.
  - destruct (find_first_split _ _ _ Hp) as (pb & pa & Hinv & Hpb & Hpx).
    assert (Hnew : update_first (has_id (Inventory.id p))
                     (Inventory.set_quantity (Inventory.quantity p + Sales.quantity sale))
                     (inventory s)
                   = pb ++ Inventory.set_quantity
                             (Inventory.quantity p + Sales.quantity sale) p :: pa).
    { rewrite Hinv. apply update_first_split.
      - rewrite Hinv in Hkey. exact (key_not_before _ _ _ Hkey).
      - unfold has_id. apply Z.eqb_refl. }
    apply same_product_spec in Hpx.
    repeat split.
    + exists sb, sa. split; [exact Hs|].
      rewrite Hs. now apply delete_first_split.
    + intros _. exists pb, p, pa. repeat split; try assumption; try apply Hpx.
      eapply Forall_impl; [|exact Hpb]. intros q Hq Hm.
      apply same_product_spec in Hm. congruence.
    + intros Hnone. exfalso. apply (Hnone p); [|exact Hpx].
      rewrite Hinv. apply in_or_app. right. now left.
  - repeat split.
    + exists sb, sa. split; [exact Hs|].
      rewrite Hs. now apply delete_first_split.
    + intros (p & Hin & Hm). exfalso.
      pose proof (find_none _ _ Hp p Hin) as Hno.
      apply same_product_spec in Hm. congruence.
Qed.

Lemma delete_sale_restores_stock_witness :
  NoDup (map Inventory.id (inventory after_sale))
  /\ find (sale_has_id 1) (sales after_sale) = Some sold_chairs
  /\ not_permitted clerk sold_chairs = false
  /\ fst (delete_sale 1 true clerk after_sale) = inr tt
  /\ on_hand 1 (snd (delete_sale 1 true clerk after_sale)) = Some 5.
Proof.
  assert (Hkey : NoDup (map Inventory.id (inventory after_sale))).
  { simpl. repeat constructor; simpl; intuition discriminate. }
  split; [exact Hkey|]. split; [reflexivity|]. split; [reflexivity|].
  generalize (delete_sale_restores_stock 1 clerk after_sale sold_chairs
                Hkey eq_refl eq_refl).
  destruct (delete_sale 1 true clerk after_sale) as [r s'].
  intros (Hr & _ & Hmatch & _). split; [exact Hr|]. cbn [snd].
  destruct Hmatch as (before & p & after & Hinv & _ & [Hn _] & Hinv').
  { exists (Inventory.set_quantity 3 chair). repeat split. now left. }
  unfold on_hand. rewrite Hinv'.
  destruct before as [|b before]; simpl in Hinv.
  - injection Hinv as <- <-. reflexivity.
  - injection Hinv as <- Hrest.
    destruct before as [|b' before]; simpl in Hrest.
    + injection Hrest as <- <-. discriminate Hn.
    + injection Hrest as _ Hnil. now destruct before.
Defined.

(** With no product called Chair in the Wood category the same request still
    deletes the sale and leaves the stock alone. *)
Example delete_sale_without_match :
  let s := mk_store [table] [sold_chairs] [] 2 1 noon in
  let '(r, s') := delete_sale 1 true clerk s in
  r = inr tt /\ sales s' = [] /\ inventory s' = [table].
Proof. cbn. repeat split. Qed.

(** ** Debits and credits on a product *)


Section UpdateKeeps.
Context {A : Type} (P : A -> Prop) (p : A -> bool).


End UpdateKeeps.






(** ** Appending to an invoice *)

Lemma find_is_none {A} (p : A -> bool) (l : list A) :
  find p l = None <-> forall x, In x l -> p x = false.
Proof.
  split; [apply find_none|].
  intros Hall. destruct (find p l) as [x|] eqn:E; [|reflexivity].
  apply find_some in E as [Hin Hp]. rewrite (Hall x Hin) in Hp. discriminate.
Qed.

Lemma sale_on_invoice_by_spec (inv uid : string) (r : Sales.row) :
  sale_on_invoice_by inv uid r = true
  <-> Sales.invoice_no r = Some inv /\ Sales.sold_by r = uid.
Proof.
  unfold sale_on_invoice_by. destruct (Sales.invoice_no r) as [i|]; simpl.
  - rewrite andb_true_iff, !String.eqb_eq. split.
    + now intros [-> ->].
    + now intros [[= ->] ->].
  - split; [discriminate | now intros [? _]].
Qed.

Lemma expense_on_invoice_by_spec (inv uid : string) (e : Expenses.row) :
  expense_on_invoice_by inv uid e = true
  <-> Expenses.invoice_no e = Some inv /\ Expenses.added_by e = uid.
Proof.
  unfold expense_on_invoice_by. destruct (Expenses.invoice_no e) as [i|]; simpl.
  - rewrite andb_true_iff, !String.eqb_eq. split.
    + now intros [-> ->].
    + now intros [[= ->] ->].
  - split; [discriminate | now intros [? _]].
Qed.

Lemma owns_no_sale_line_find (inv : string) (u : User.t) (s : store) :
  find (sale_on_invoice_by inv (User.id u)) (sales s) = None
  <-> owns_no_sale_line inv u s.
Proof.
  rewrite find_is_none. unfold owns_no_sale_line.
  split; intros H r Hin; specialize (H r Hin).
  - rewrite <- sale_on_invoice_by_spec, H. discriminate.
  - rewrite <- sale_on_invoice_by_spec in H.
    now destruct (sale_on_invoice_by inv (User.id u) r).
Qed.

Lemma owns_no_expense_line_find (inv : string) (u : User.t) (s : store) :
  find (expense_on_invoice_by inv (User.id u)) (expenses s) = None
  <-> owns_no_expense_line inv u s.
Proof.
  rewrite find_is_none. unfold owns_no_expense_line.
  split; intros H e Hin; specialize (H e Hin).
  - rewrite <- expense_on_invoice_by_spec, H. discriminate.
  - rewrite <- expense_on_invoice_by_spec in H.
    now destruct (expense_on_invoice_by inv (User.id u) e).
Qed.

(** A staff member appending to invoice INV-000007 of a store with no sale
    at all, with an empty item list: the request is refused as malformed
    before ownership is looked at, so no permission failure is raised
    although the principal owns no line of that invoice. *)
Lemma append_nothing_is_not_denied :
  User.role clerk = "staff"
  /\ owns_no_sale_line "INV-000007" clerk showroom
  /\ fst (add_sale_items_to_invoice "INV-000007" (bulk_request []) clerk showroom)
     = inl ValidationError
  /\ fst (add_sale_items_to_invoice "INV-000007" (bulk_request []) clerk showroom)
     <> inl PermissionDenied.
Proof.
  repeat split; try discriminate. intros r [].
Qed.

(** C7, as the code has it.  For a staff principal and an append request
    with at least one item, on sales and on expenses alike, a permission
    failure is raised exactly when the principal owns no existing line of
    that invoice; an admin's append is never refused on a permission
    failure; and a request with no item is refused as malformed whoever
    sends it. *)
Theorem append_permission :
  (forall inv sale_data u s,
      User.role u = "staff" -> BulkSalesCreate.items sale_data <> [] ->
      fst (add_sale_items_to_invoice inv sale_data u s) = inl PermissionDenied
      <-> owns_no_sale_line inv u s)
  /\ (forall inv expense_data u s,
      User.role u = "staff" -> BulkExpenseCreate.items expense_data <> [] ->
      fst (add_expense_items_to_invoice inv expense_data u s) = inl PermissionDenied
      <-> owns_no_expense_line inv u s)
  /\ (forall inv sale_data u s,
      User.role u = "admin" ->
      fst (add_sale_items_to_invoice inv sale_data u s) <> inl PermissionDenied)
  /\ (forall inv expense_data u s,
      User.role u = "admin" ->
      fst (add_expense_items_to_invoice inv expense_data u s) <> inl PermissionDenied)
  /\ (forall inv sale_data u s,
      BulkSalesCreate.items sale_data = [] ->
      add_sale_items_to_invoice inv sale_data u s = (inl ValidationError, s))
  /\ (forall inv expense_data u s,
      BulkExpenseCreate.items expense_data = [] ->
      add_expense_items_to_invoice inv expense_data u s = (inl ValidationError, s)).
Proof.
  repeat apply conj.
  - intros inv sale_data u s Hrole Hitems.
    rewrite <- owns_no_sale_line_find, add_sale_items_cases, Hrole.
    destruct (BulkSalesCreate.items sale_data) as [|item rest]; [easy|].
    cbn [String.eqb Ascii.eqb Bool.eqb].
    destruct (find (sale_on_invoice_by inv (User.id u)) (sales s)); [|easy].
    split; [|discriminate]. intros H. exfalso.
    destruct (find (has_id (SaleItem.product_id item)) (inventory s)) as [p|];
      [destruct (Inventory.quantity p <? SaleItem.quantity item)|];
      discriminate H.
  - intros inv expense_data u s Hrole Hitems.
    rewrite <- owns_no_expense_line_find, add_expense_items_cases, Hrole.
    destruct (BulkExpenseCreate.items expense_data) as [|item rest]; [easy|].
    cbn [String.eqb Ascii.eqb Bool.eqb].
    now destruct (find (expense_on_invoice_by inv (User.id u)) (expenses s)).
  - intros inv sale_data u s Hrole.
    rewrite add_sale_items_cases, Hrole.
    destruct (BulkSalesCreate.items sale_data) as [|item rest]; [discriminate|].
    cbn [String.eqb Ascii.eqb Bool.eqb].
    destruct (find (has_id (SaleItem.product_id item)) (inventory s)) as [p|];
      [destruct (Inventory.quantity p <? SaleItem.quantity item)|];
      discriminate.
  - intros inv expense_data u s Hrole.
    rewrite add_expense_items_cases, Hrole.
    now destruct (BulkExpenseCreate.items expense_data).
  - intros inv sale_data u s H. rewrite add_sale_items_cases. now rewrite H.
  - intros inv expense_data u s H. rewrite add_expense_items_cases. now rewrite H.
Qed.

Lemma append_permission_witness :
  (User.role clerk = "staff"
   /\ BulkSalesCreate.items (bulk_request one_table) <> []
   /\ (fst (add_sale_items_to_invoice "INV-000007" (bulk_request one_table) clerk showroom)
       = inl PermissionDenied
       <-> owns_no_sale_line "INV-000007" clerk showroom))
  /\ (User.role manager = "admin"
      /\ fst (add_sale_items_to_invoice "INV-000007" (bulk_request one_table) manager showroom)
         <> inl PermissionDenied).
Proof.
  destruct append_permission as (Hstaff & _ & Hadmin & _).
  split.
  - split; [reflexivity|]. split; [discriminate|].
    apply Hstaff; [reflexivity | discriminate].
  - split; [reflexivity|]. apply Hadmin. reflexivity.
Defined.

(** A staff member who owns no line of INV-000007 is refused the append; the
    one who sold the chairs on that invoice is not. *)
Example append_to_invoice_7 :
  add_sale_items_to_invoice "INV-000007" (bulk_request one_table) stranger after_sale
  = (inl PermissionDenied, after_sale)
  /\ fst (add_sale_items_to_invoice "INV-000007" (bulk_request one_table) clerk
                                    after_sale)
     <> inl PermissionDenied.
Proof.
  rewrite !add_sale_items_cases. cbn. split; [reflexivity | discriminate].
Qed.

(** ** Material and vendor in one column *)

Lemma prefix_cons (a b : ascii) (s1 s2 : string) :
  String.prefix (String a s1) (String b s2) = (Ascii.eqb a b && String.prefix s1 s2)%bool.
Proof.
  simpl. destruct (ascii_dec a b) as [->|Hne].
  - now rewrite Ascii.eqb_refl.
  - apply Ascii.eqb_neq in Hne. now rewrite Hne.
Qed.

Lemma prefix_nil (s : string) : String.prefix "" s = true.
Proof. now destruct s. Qed.

(** Under a positive [in] test the split has two parts. *)
Lemma split_once_defined (sep s : string) :
  str_in sep s = true -> split_once sep s <> None.
Proof.
  induction s as [|c s IH]; cbn [str_in split_once].
  - destruct (String.prefix sep ""); [discriminate | now intros H].
  - destruct (String.prefix sep (String c s)); cbn [orb]; [discriminate|].
    intros H. specialize (IH H).
    destruct (split_once sep s) as [[? ?]|]; [discriminate | contradiction].
Qed.

Lemma str_in_combined (material_name vendor_name : string) :
  str_in delimiter (combined_name material_name vendor_name) = true.
Proof.
  unfold combined_name. induction material_name as [|c m IH].
  - unfold delimiter. cbn [append str_in].
    now rewrite !prefix_cons, prefix_nil.
  - cbn [append str_in]. rewrite IH. apply orb_true_r.
Qed.

(** The leftmost delimiter of the stored string is the one the writer put
    in, provided the material neither contains the delimiter nor ends with
    its first two characters. *)
Lemma split_once_combined (material_name vendor_name : string) :
  str_in delimiter material_name = false ->
  ends_with " -" material_name = false ->
  split_once delimiter (combined_name material_name vendor_name)
  = Some (material_name, vendor_name).
Proof.
  unfold combined_name.
  induction material_name as [|c m IH]; intros Hin Hend.
  - unfold delimiter. cbn [append split_once].
    now rewrite !prefix_cons, prefix_nil.
  - cbn [str_in] in Hin. cbn [ends_with] in Hend.
    apply orb_false_elim in Hin as [Hpre Hin].
    apply orb_false_elim in Hend as [Heq Hend].
    cbn [append split_once]. rewrite (IH Hin Hend).
    assert (Hno : String.prefix delimiter (String c (m ++ delimiter ++ vendor_name)%string)
                  = false).
    { unfold delimiter in *. rewrite prefix_cons in Hpre |- *.
      cbn [String.eqb] in Heq.
      destruct (Ascii.eqb " " c) eqn:Hc; [|reflexivity]. cbn [andb] in *.
      destruct m as [|d m]; [reflexivity|].
      cbn [append]. rewrite prefix_cons in Hpre |- *.
      destruct (Ascii.eqb "-" d) eqn:Hd; [|reflexivity]. cbn [andb] in *.
      destruct m as [|e m]; [discriminate Heq|].
      cbn [append]. rewrite prefix_cons in Hpre |- *.
      destruct (Ascii.eqb " " e) eqn:He; [|reflexivity]. cbn [andb] in *.
      rewrite prefix_nil in Hpre. discriminate Hpre. }
    now rewrite Hno.
Qed.

Lemma split_combined_sound (material_name vendor_name : string) :
  split_once delimiter (combined_name material_name vendor_name)
  = Some (material_name, vendor_name) ->
  str_in delimiter material_name = false /\ ends_with " -" material_name = false.
Proof.
  unfold combined_name.
  induction material_name as [|c m IH]; intros Hsplit.
  - split; reflexivity.
  - cbn [append split_once] in Hsplit.
    destruct (String.prefix delimiter (String c (m ++ delimiter ++ vendor_name)%string))
      eqn:Hpre; [discriminate|].
    destruct (split_once delimiter (m ++ delimiter ++ vendor_name)%string)
      as [[before rest]|] eqn:Hrec; [|discriminate].
    injection Hsplit as -> ->.
    destruct (IH eq_refl) as [Hin Hend].
    cbn [str_in ends_with]. rewrite Hin, Hend, !orb_false_r.
    unfold delimiter in *. rewrite prefix_cons in Hpre |- *.
    cbn [String.eqb].
    destruct (Ascii.eqb " " c) eqn:Hc; [|now split]. cbn [andb] in *.
    destruct m as [|d m]; [now split|].
    cbn [append] in Hpre. rewrite prefix_cons in Hpre |- *.
    cbn [String.eqb].
    destruct (Ascii.eqb "-" d) eqn:Hd; [|now split]. cbn [andb] in *.
    destruct m as [|e m].
    + cbn [append] in Hpre. rewrite prefix_cons, prefix_nil in Hpre. discriminate.
    + cbn [append] in Hpre. rewrite prefix_cons, prefix_nil in Hpre |- *.
      cbn [String.eqb]. rewrite Hpre. now split.
Qed.

Section OrderByFacts.
Context {A : Type} (created_at : A -> datetime).

Lemma insert_desc_In (x y : A) (l : list A) :
  In y (insert_desc created_at x l) <-> y = x \/ In y l.
Proof.
  induction l as [|z l IH]; simpl.
  - intuition.
  - destruct (datetime_lt (created_at x) (created_at z)); simpl.
    + rewrite IH. intuition.
    + intuition.
Qed.

Lemma order_desc_In (y : A) (l : list A) :
  In y (order_desc created_at l) <-> In y l.
Proof.
  induction l as [|x l IH]; simpl.
  - reflexivity.
  - rewrite insert_desc_In, IH. intuition.
Qed.
End OrderByFacts.

Lemma expense_response_names (edited : bool) (e : Expenses.row) (m v : string) :
  split_material_name (Expenses.material_name e) = (m, v) ->
  ExpenseResponse.material_name (expense_response edited e) = m
  /\ ExpenseResponse.vendor_name (expense_response edited e) = v
  /\ ExpenseResponse.id (expense_response edited e) = Expenses.id e.
Proof. unfold expense_response. now intros ->. Qed.

(** A material whose name ends in " -": the name does not contain the
    delimiter, yet the stored string "Teak - - Ali" splits at its first
    " - ", which ends one character into the delimiter the writer added;
    the listing of a store that holds this string shows the material
    "Teak" and the vendor "- Ali". *)
Lemma trailing_dash_is_lossy :
  str_in delimiter "Teak -" = false
  /\ split_material_name (combined_name "Teak -" "Ali") = ("Teak", "- Ali")
  /\ map (fun listed => (ExpenseResponse.material_name listed,
                         ExpenseResponse.vendor_name listed))
         (get_expenses clerk (one_expense (combined_name "Teak -" "Ali")))
     = [("Teak", "- Ali")]
  /\ ("Teak", "- Ali") <> ("Teak -", "Ali").
Proof. repeat split. discriminate. Qed.

(** C9, as the code has it.  The string stored for an expense is
    [material_name ++ " - " ++ vendor_name]; every reader splits the stored
    string at its leftmost [" - "].  The split gives back the two names
    exactly when the material name neither contains [" - "] nor ends with
    [" -"].  Under that condition the entry [get_expenses] lists for a row
    that holds the joined string carries the two names. *)
Theorem expense_names_round_trip :
  (forall material_name vendor_name,
      split_material_name (combined_name material_name vendor_name)
      = (material_name, vendor_name)
      <-> str_in delimiter material_name = false
          /\ ends_with " -" material_name = false)
  /\
  (forall (u : User.t) (s : store) (e : Expenses.row)
          (material_name vendor_name : string),
      In e (visible_expenses u s) ->
      Expenses.material_name e = combined_name material_name vendor_name ->
      str_in delimiter material_name = false ->
      ends_with " -" material_name = false ->
      exists listed,
        In listed (get_expenses u s)
        /\ ExpenseResponse.id listed = Expenses.id e
        /\ ExpenseResponse.material_name listed = material_name
        /\ ExpenseResponse.vendor_name listed = vendor_name).
Proof.
  assert (Hsplit : forall m v,
             str_in delimiter m = false -> ends_with " -" m = false ->
             split_material_name (combined_name m v) = (m, v)).
  { intros m v Hin Hend. unfold split_material_name.
    now rewrite str_in_combined, split_once_combined. }
  split.
  - intros m v. split; [|intros [Hin Hend]; now apply Hsplit].
    unfold split_material_name. rewrite str_in_combined.
    pose proof (split_once_defined _ _ (str_in_combined m v)) as Hdef.
    destruct (split_once delimiter (combined_name m v)) as [[a b]|] eqn:E;
      [|contradiction].
    intros [= -> ->]. now apply split_combined_sound with (vendor_name := v).
  - intros u s e m v Hvisible Hstored Hin Hend.
    assert (Hrow : split_material_name (Expenses.material_name e) = (m, v))
      by (rewrite Hstored; now apply Hsplit).
    destruct (expense_response_names (Expenses.edited e) e _ _ Hrow)
      as (Hm & Hv & Hid).
    exists (expense_response (Expenses.edited e) e).
    split; [|now repeat split].
    unfold get_expenses.
    apply (in_map (fun item => expense_response (Expenses.edited item) item)).
    now apply order_desc_In.
Qed.

Lemma expense_names_round_trip_witness :
  let s := one_expense (combined_name "Teak" "Ali") in
  (exists e,
      In e (visible_expenses clerk s)
      /\ Expenses.material_name e = combined_name "Teak" "Ali")
  /\ str_in delimiter "Teak" = false
  /\ ends_with " -" "Teak" = false
  /\ exists listed,
      In listed (get_expenses clerk s)
      /\ ExpenseResponse.material_name listed = "Teak"
      /\ ExpenseResponse.vendor_name listed = "Ali".
Proof.
  intros s.
  set (e := Expenses.mk 1 None (combined_name "Teak" "Ali") (Q2Qc 10) "1"
                        (Some (Q2Qc 0)) false None None "7" false noon).
  assert (Hvisible : In e (visible_expenses clerk s)) by (now left).
  assert (Hin : str_in delimiter "Teak" = false) by reflexivity.
  assert (Hend : ends_with " -" "Teak" = false) by reflexivity.
  split; [exists e; now split|]. split; [exact Hin|]. split; [exact Hend|].
  destruct (proj2 expense_names_round_trip clerk s e "Teak" "Ali"
              Hvisible eq_refl Hin Hend)
    as (listed & Hlisted & _ & Hm & Hv).
  exists listed. now repeat split.
Defined.

(** ** Role scoping of the aggregates *)

(** A staff member's dashboard depends on the store only through the rows
    that member owns and the inventory. *)
Lemma dashboard_staff_scoped (u : User.t) (s1 s2 : store) :
  User.role u = "staff" ->
  filter (fun r => String.eqb (Sales.sold_by r) (User.id u)) (sales s1)
  = filter (fun r => String.eqb (Sales.sold_by r) (User.id u)) (sales s2) ->
  filter (fun e => String.eqb (Expenses.added_by e) (User.id u)) (expenses s1)
  = filter (fun e => String.eqb (Expenses.added_by e) (User.id u)) (expenses s2) ->
  inventory s1 = inventory s2 ->
  get_dashboard_stats u s1 = get_dashboard_stats u s2.
Proof.
  intros Hrole Hsales Hexp Hinv.
  assert (Hs : forall s, filter (sales_where u) (sales s)
               = filter (fun r => String.eqb (Sales.sold_by r) (User.id u)) (sales s)).
  { intros s. apply filter_ext. intros r. unfold sales_where. now rewrite Hrole. }
  assert (He : forall s, filter (expenses_where u) (expenses s)
               = filter (fun e => String.eqb (Expenses.added_by e) (User.id u)) (expenses s)).
  { intros s. apply filter_ext. intros e. unfold expenses_where. now rewrite Hrole. }
  unfold get_dashboard_stats. now rewrite !Hs, !He, Hsales, Hexp, Hinv.
Qed.

(** [inventory_value] ranges over every product, whoever asks. *)
Lemma inventory_value_unscoped (u : User.t) (s : store) :
  DashboardStats.inventory_value (get_dashboard_stats u s)
  = total (fun p => times (Inventory.cost_price p) (Inventory.quantity p)) (inventory s).
Proof. unfold get_dashboard_stats. cbn. apply py_sum_total. Qed.

(** The monthly report does not depend on who asks for it. *)
Lemma monthly_report_any_principal (y : Z) (u1 u2 : User.t) (s : store) :
  get_monthly_report y u1 s = get_monthly_report y u2 s.
Proof. reflexivity. Qed.

(** C2 fails on [get_monthly_report]: its queries filter on [created_at]
    only.  The staff member [clerk] owns no row of [managers_books]; the
    dashboard accordingly shows that principal no sales and no expenses,
    yet the monthly report for 2024 shows the manager's revenue of 100,
    expenses of 10 and profit of 30, and differs from the report over the
    store without the manager's rows.  The inventory value is that of all
    products either way. *)
Theorem monthly_report_not_scoped :
  User.role clerk = "staff"
  /\ visible_sales clerk managers_books = []
  /\ visible_expenses clerk managers_books = []
  /\ DashboardStats.total_sales (get_dashboard_stats clerk managers_books) = Q2Qc 0
  /\ DashboardStats.total_expenses (get_dashboard_stats clerk managers_books) = Q2Qc 0
  /\ DashboardStats.inventory_value (get_dashboard_stats clerk managers_books) = Q2Qc 300
  /\ (exists report,
         get_monthly_report 2024 clerk managers_books = Some report
         /\ MonthlyReportResponse.total_revenue report = Q2Qc 100
         /\ MonthlyReportResponse.total_expenses report = Q2Qc 10
         /\ MonthlyReportResponse.total_profit report = Q2Qc 30)
  /\ get_monthly_report 2024 clerk managers_books
     <> get_monthly_report 2024 clerk (mk_store [chair] [] [] 2 2 noon).
Proof.
  assert (Hrun : option_map
                   (fun r => (this (MonthlyReportResponse.total_revenue r),
                              this (MonthlyReportResponse.total_expenses r),
                              this (MonthlyReportResponse.total_profit r)))
                   (get_monthly_report 2024 clerk managers_books)
                 = Some (100 # 1, 10 # 1, 30 # 1)%Q)
    by (vm_compute; reflexivity).
  do 3 (split; [reflexivity|]).
  do 3 (split; [apply Qc_is_canon; vm_compute; reflexivity|]).
  split.
  - destruct (get_monthly_report 2024 clerk managers_books) as [report|];
      [|discriminate Hrun].
    injection Hrun as Hrev Hexp Hprofit.
    exists report. split; [reflexivity|].
    repeat split; apply Qc_is_canon;
      [rewrite Hrev | rewrite Hexp | rewrite Hprofit]; reflexivity.
  - intros Heq. rewrite Heq in Hrun. clear Heq.
    vm_compute in Hrun. discriminate Hrun.
Qed.

(** ** Profit *)

Section Rounding.
Local Open Scope Q_scope.

Lemma round_half_even_Qeq (x y : Q) :
  x == y -> round_half_even x = round_half_even y.
Proof.
  intros H. unfold round_half_even.
  rewrite (Qfloor_comp _ _ H).
  assert (Hd : x - inject_Z (Qfloor y) == y - inject_Z (Qfloor y))
    by now rewrite H.
  now rewrite (Qcompare_comp _ _ Hd _ _ (Qeq_refl (1 # 2))).
Qed.

Lemma round_half_even_Z (k : Z) : round_half_even (inject_Z k) = k.
Proof.
  unfold round_half_even. rewrite Qfloor_Z.
  assert (H : inject_Z k - inject_Z k == 0) by ring.
  now rewrite (Qcompare_comp _ _ H _ _ (Qeq_refl (1 # 2))).
Qed.
End Rounding.

Lemma Q2Qc_this (q : Q) : (this (Q2Qc q) == q)%Q.
Proof. simpl. apply Qred_correct. Qed.

Lemma whole_cents_0 : whole_cents (Q2Qc 0).
Proof. exists 0. now apply Q2Qc_eq_iff. Qed.

Lemma whole_cents_plus (a b : amount) :
  whole_cents a -> whole_cents b -> whole_cents (a + b)%Qc.
Proof.
  intros [ka ->] [kb ->]. exists (ka + kb). unfold Qcplus.
  apply Q2Qc_eq_iff. rewrite !Q2Qc_this.
  unfold Qeq, Qplus. simpl. lia.
Qed.

Lemma whole_cents_minus (a b : amount) :
  whole_cents a -> whole_cents b -> whole_cents (a - b)%Qc.
Proof.
  intros [ka ->] [kb ->]. exists (ka - kb). unfold Qcminus, Qcplus, Qcopp.
  apply Q2Qc_eq_iff. rewrite !Q2Qc_this.
  unfold Qeq, Qplus, Qopp. simpl. lia.
Qed.

Lemma whole_cents_times (a : amount) (n : Z) :
  whole_cents a -> whole_cents (times a n).
Proof.
  intros [ka ->]. exists (ka * n). unfold times, of_int, Qcmult.
  apply Q2Qc_eq_iff. rewrite !Q2Qc_this.
  unfold Qeq, Qmult, inject_Z. simpl. lia.
Qed.


(** Rounding to two decimals leaves a whole number of hundredths alone. *)
Lemma round2_whole_cents (a : amount) : whole_cents a -> round2 a = a.
Proof.
  intros [k ->]. unfold round2. apply Q2Qc_eq_iff.
  assert (H : (this (Q2Qc (k # 100)) * inject_Z 100 == inject_Z k)%Q).
  { rewrite Q2Qc_this. unfold Qeq, Qmult, inject_Z. simpl. lia. }
  rewrite (round_half_even_Qeq _ _ H), round_half_even_Z.
  unfold Qeq, Qdiv, Qmult, Qinv, inject_Z. simpl. lia.
Qed.

Lemma Forall_filter {A} (P : A -> Prop) (p : A -> bool) (l : list A) :
  Forall P l -> Forall P (filter p l).
Proof.
  induction 1 as [|x l Hx Hl IH]; simpl; [constructor|].
  destruct (p x); [constructor|]; assumption.
Qed.


(** *** The dates of the report *)

Lemma first_of_month_spec (y m : Z) :
  first_of_month y m
  = if (1 <=? y) && (y <=? 9999) && (1 <=? m) && (m <=? 12)
    then Some (mk_datetime y m 1 0) else None.
Proof. reflexivity. Qed.

(** The filter of a month can be built exactly when the year is in
    1..9999, the month in 1..12, and December's year is below 9999. *)
Lemma month_filter_in_range (y m : Z) :
  1 <= y <= 9999 -> 1 <= m <= 12 -> (m = 12 -> y <= 9998) ->
  month_filter y m = Some (month_bounds y m).
Proof.
  intros Hy Hm Hdec. unfold month_filter, month_bounds, first_of_month.
  replace ((1 <=? y) && (y <=? 9999) && (1 <=? m) && (m <=? 12)) with true
    by (symmetry; rewrite !andb_true_iff, !Z.leb_le; lia).
  destruct (Z.ltb_spec m 12).
  - replace ((1 <=? y) && (y <=? 9999) && (1 <=? m + 1) && (m + 1 <=? 12)) with true
      by (symmetry; rewrite !andb_true_iff, !Z.leb_le; lia).
    reflexivity.
  - replace ((1 <=? y + 1) && (y + 1 <=? 9999) && (1 <=? 1) && (1 <=? 12)) with true
      by (symmetry; rewrite !andb_true_iff, !Z.leb_le; lia).
    reflexivity.
Qed.

Lemma month_filter_out_of_range (y m : Z) :
  ~ (1 <= y <= 9999) \/ (m = 12 /\ y = 9999) -> month_filter y m = None.
Proof.
  intros H. unfold month_filter, first_of_month.
  destruct ((1 <=? y) && (y <=? 9999) && (1 <=? m) && (m <=? 12)) eqn:E;
    [|reflexivity].
  rewrite !andb_true_iff, !Z.leb_le in E.
  destruct H as [H|[-> ->]]; [lia|]. reflexivity.
Qed.

(** *** The loop of the report *)

Lemma report_month_in_range (y m : Z) (s : store) (st : report_state) :
  1 <= y <= 9999 -> 1 <= m <= 12 -> (m = 12 -> y <= 9998) ->
  exists st',
    report_month y s st m = Some st'
    /\ map MonthlyData.profit (monthly_data st')
       = map MonthlyData.profit (monthly_data st) ++ [round2 (month_profit y m s)]
    /\ (total_revenue st' - total_cogs st' - total_expenses st'
        = (total_revenue st - total_cogs st - total_expenses st)
          + month_profit y m s)%Qc.
Proof.
  intros Hy Hm Hdec. unfold report_month.
  rewrite (month_filter_in_range y m Hy Hm Hdec).
  eexists. split; [reflexivity|].
  cbn [monthly_data total_revenue total_cogs total_expenses].
  unfold month_profit, month_sales, month_expense_rows.
  rewrite <- !py_sum_total. split.
  - rewrite map_app. reflexivity.
  - unfold revenue, cogs. ring.
Qed.

Lemma report_loop_none (y : Z) (s : store) (months : list Z) :
  fold_left (fun acc month_num =>
               match acc with
               | Some st' => report_month y s st' month_num
               | None => None
               end) months None = None.
Proof. induction months as [|m months IH]; simpl; auto. Qed.

Lemma report_loop_in_range (y : Z) (s : store) (months : list Z) :
  1 <= y <= 9999 ->
  Forall (fun m => 1 <= m <= 12 /\ (m = 12 -> y <= 9998)) months ->
  forall st, exists st',
    report_loop y s months st = Some st'
    /\ map MonthlyData.profit (monthly_data st')
       = map MonthlyData.profit (monthly_data st)
         ++ map (fun m => round2 (month_profit y m s)) months
    /\ (total_revenue st' - total_cogs st' - total_expenses st'
        = (total_revenue st - total_cogs st - total_expenses st)
          + py_sum (map (fun m => month_profit y m s) months))%Qc.
Proof.
  intros Hy Hmonths. induction Hmonths as [|m months [Hm Hdec] _ IH]; intros st.
  - exists st. split; [reflexivity|]. split; [now rewrite app_nil_r|].
    simpl. rewrite py_sum_nil. ring.
  - destruct (report_month_in_range y m s st Hy Hm Hdec) as (st1 & Hrun & Hdata & Htot).
    destruct (IH st1) as (st' & Hloop & Hdata' & Htot').
    exists st'. unfold report_loop in *. cbn [fold_left]. rewrite Hrun.
    split; [exact Hloop|]. split.
    + rewrite Hdata', Hdata, <- app_assoc. reflexivity.
    + rewrite Htot', Htot. cbn [map]. rewrite py_sum_cons. ring.
Qed.

Lemma report_loop_out_of_range (y : Z) (s : store) (months : list Z) (m : Z) :
  In m months -> month_filter y m = None ->
  forall st, report_loop y s months st = None.
Proof.
  intros Hin Hnone. unfold report_loop.
  induction months as [|m' months IH]; intros st; [contradiction|].
  cbn [fold_left]. destruct Hin as [->|Hin].
  - unfold report_month at 2. rewrite Hnone. apply report_loop_none.
  - destruct (report_month y s st m') as [st1|];
      [now apply IH | apply report_loop_none].
Qed.

(** The report is produced exactly for the years 1 to 9998. *)
Lemma monthly_report_defined (y : Z) (u : User.t) (s : store) :
  get_monthly_report y u s <> None <-> 1 <= y <= 9998.
Proof.
  unfold get_monthly_report. split.
  - intros Hsome.
    destruct (Z_le_dec 1 y) as [Hlo|Hlo], (Z_le_dec y 9998) as [Hhi|Hhi];
      try lia; exfalso; apply Hsome.
    + assert (Hbad : exists m, In m range_1_13 /\ month_filter y m = None).
      { destruct (Z.eq_dec y 9999) as [->|Hne].
        - exists 12. split; [unfold range_1_13; simpl; tauto|].
          apply month_filter_out_of_range. right. lia.
        - exists 1. split; [now left|].
          apply month_filter_out_of_range. left. lia. }
      destruct Hbad as (m & Hin & Hnone).
      now rewrite (report_loop_out_of_range y s range_1_13 m Hin Hnone).
    + assert (Hnone : month_filter y 1 = None)
        by (apply month_filter_out_of_range; left; lia).
      now rewrite (report_loop_out_of_range y s range_1_13 1 (or_introl eq_refl) Hnone).
  - intros Hy.
    destruct (report_loop_in_range y s range_1_13) with
      (st := mk_report_state [] (Q2Qc 0) (Q2Qc 0) (Q2Qc 0)) as (st' & -> & _).
    + lia.
    + unfold range_1_13. repeat constructor; lia.
    + discriminate.
Qed.



(** * Further properties *)

(** ** Ordered listings *)

Lemma datetime_lt_spec (a b : datetime) :
  datetime_lt a b = true
  <-> year a < year b
      \/ (year a = year b
          /\ (month a < month b
              \/ (month a = month b
                  /\ (day a < day b
                      \/ (day a = day b /\ time_of_day a < time_of_day b))))).
Proof.
  unfold datetime_lt.
  rewrite !orb_true_iff, !andb_true_iff, !orb_true_iff, !andb_true_iff,
    !orb_true_iff, !andb_true_iff, !Z.ltb_lt, !Z.eqb_eq.
  tauto.
Qed.

Lemma datetime_lt_asym (a b : datetime) :
  datetime_lt a b = true -> datetime_lt b a = false.
Proof.
  intros H. apply datetime_lt_spec in H.
  destruct (datetime_lt b a) eqn:E; [|reflexivity].
  apply datetime_lt_spec in E. lia.
Qed.

Section OrderedListings.
Context {A : Type} (created_at : A -> datetime).

Lemma insert_desc_perm (x : A) (l : list A) :
  Permutation (x :: l) (insert_desc created_at x l).
Proof.
  induction l as [|y l IH]; simpl; [reflexivity|].
  destruct (datetime_lt (created_at x) (created_at y)); [|reflexivity].
  rewrite perm_swap. now constructor.
Qed.

Lemma order_desc_perm (l : list A) :
  Permutation l (order_desc created_at l).
Proof.
  induction l as [|x l IH]; simpl; [constructor|].
  rewrite <- insert_desc_perm. now constructor.
Qed.

Lemma insert_desc_sorted (x : A) (l : list A) :
  newest_first created_at l -> newest_first created_at (insert_desc created_at x l).
Proof.
  unfold newest_first. induction 1 as [|y l Hl IH Hhd]; simpl.
  - repeat constructor.
  - destruct (datetime_lt (created_at x) (created_at y)) eqn:E.
    + constructor; [exact IH|].
      destruct l as [|z l]; simpl.
      * constructor. now apply datetime_lt_asym.
      * destruct (datetime_lt (created_at x) (created_at z)).
        -- inversion Hhd; subst. now constructor.
        -- constructor. now apply datetime_lt_asym.
    + constructor; [now constructor|]. now constructor.
Qed.

Lemma order_desc_sorted (l : list A) :
  newest_first created_at (order_desc created_at l).
Proof.
  induction l as [|x l IH]; simpl; [constructor|].
  now apply insert_desc_sorted.
Qed.

Lemma insert_asc_perm (x : A) (l : list A) :
  Permutation (x :: l) (insert_asc created_at x l).
Proof.
  induction l as [|y l IH]; simpl; [reflexivity|].
  destruct (datetime_lt (created_at y) (created_at x)); [|reflexivity].
  rewrite perm_swap. now constructor.
Qed.

Lemma order_asc_perm (l : list A) :
  Permutation l (order_asc created_at l).
Proof.
  induction l as [|x l IH]; simpl; [constructor|].
  rewrite <- insert_asc_perm. now constructor.
Qed.

Lemma order_asc_nil (l : list A) :
  order_asc created_at l = [] <-> l = [].
Proof.
  split; [|now intros ->].
  intros H. pose proof (order_asc_perm l) as Hp. rewrite H in Hp.
  now apply Permutation_nil.
Qed.
End OrderedListings.

(** X1: [get_sales] lists every sale row the principal may see exactly
    once, newest first: all rows for an admin, the rows with the
    principal's [sold_by] for a staff member. *)
Theorem get_sales_listing (u : User.t) (s : store) :
  newest_first Sales.created_at (get_sales u s)
  /\ (User.role u = "staff" ->
      Permutation
        (filter (fun r => String.eqb (Sales.sold_by r) (User.id u)) (sales s))
        (get_sales u s))
  /\ (User.role u = "admin" -> Permutation (sales s) (get_sales u s)).
Proof.
  unfold get_sales. split; [apply order_desc_sorted|]. split; intros Hrole.
  - rewrite <- order_desc_perm.
    erewrite filter_ext; [reflexivity|].
    intros r. unfold sales_where. now rewrite Hrole.
  - rewrite <- order_desc_perm.
    erewrite filter_ext with (g := fun _ => true).
    + clear. induction (sales s) as [|r l IH]; simpl; [constructor|now constructor].
    + intros r. unfold sales_where. now rewrite Hrole.
Qed.

Lemma get_sales_listing_witness :
  User.role clerk = "staff"
  /\ Permutation
       (filter (fun r => String.eqb (Sales.sold_by r) (User.id clerk))
               (sales managers_books))
       (get_sales clerk managers_books)
  /\ User.role manager = "admin"
  /\ Permutation (sales managers_books) (get_sales manager managers_books).
Proof.
  destruct (get_sales_listing clerk managers_books) as (_ & Hstaff & _).
  destruct (get_sales_listing manager managers_books) as (_ & _ & Hadmin).
  split; [reflexivity|]. split; [apply Hstaff; reflexivity|].
  split; [reflexivity|]. apply Hadmin. reflexivity.
Defined.

(** ** The sale handlers that write *)


(** ** Rendering an invoice *)

Lemma insert_asc_sorted {A} (created_at : A -> datetime) (x : A) (l : list A) :
  oldest_first created_at l -> oldest_first created_at (insert_asc created_at x l).
Proof.
  unfold oldest_first. induction 1 as [|y l Hl IH Hhd]; simpl.
  - repeat constructor.
  - destruct (datetime_lt (created_at y) (created_at x)) eqn:E.
    + constructor; [exact IH|].
      destruct l as [|z l]; simpl.
      * constructor. now apply datetime_lt_asym.
      * destruct (datetime_lt (created_at z) (created_at x)).
        -- inversion Hhd; subst. now constructor.
        -- constructor. now apply datetime_lt_asym.
    + constructor; [now constructor|]. now constructor.
Qed.

Lemma order_asc_sorted {A} (created_at : A -> datetime) (l : list A) :
  oldest_first created_at (order_asc created_at l).
Proof.
  induction l as [|x l IH]; simpl; [constructor|].
  now apply insert_asc_sorted.
Qed.

Lemma filter_nil_find {A} (p : A -> bool) (l : list A) :
  filter p l = [] <-> find p l = None.
Proof.
  induction l as [|x l IH]; simpl; [tauto|].
  destruct (p x); [split; discriminate | exact IH].
Qed.

Lemma invoice_where_staff (inv : string) (u : User.t) (r : Sales.row) :
  User.role u = "staff" ->
  invoice_where inv u r = sale_on_invoice_by inv (User.id u) r.
Proof. intros Hrole. unfold invoice_where, sale_on_invoice_by. now rewrite Hrole. Qed.

Lemma generate_invoice_not_found (inv : string) (u : User.t) (s : store) :
  generate_invoice inv u s = inl NotFound
  <-> filter (invoice_where inv u) (sales s) = [].
Proof.
  unfold generate_invoice.
  destruct (order_asc Sales.created_at (filter (invoice_where inv u) (sales s)))
    as [|r l] eqn:E.
  - apply order_asc_nil in E. now split.
  - split; [discriminate|]. intros H. rewrite H in E. discriminate.
Qed.

(** A staff member's append to a sale invoice is refused for want of
    permission exactly when the ownership query finds nothing. *)
Lemma staff_append_sale_denied (inv : string) (sale_data : BulkSalesCreate.t)
    (u : User.t) (s : store) :
  User.role u = "staff" -> BulkSalesCreate.items sale_data <> [] ->
  fst (add_sale_items_to_invoice inv sale_data u s) = inl PermissionDenied
  <-> find (sale_on_invoice_by inv (User.id u)) (sales s) = None.
Proof.
  intros Hrole Hitems. rewrite add_sale_items_cases.
  destruct (BulkSalesCreate.items sale_data) as [|item rest]; [easy|].
  apply String.eqb_eq in Hrole. rewrite Hrole.
  destruct (find (sale_on_invoice_by inv (User.id u)) (sales s)); cbn [fst];
    [|now split].
  split; [|discriminate]. intros H. exfalso.
  destruct (find (has_id (SaleItem.product_id item)) (inventory s)) as [p|];
    [|discriminate].
  now destruct (Inventory.quantity p <? SaleItem.quantity item).
Qed.

(** X3: [generate_invoice] answers 404 exactly when the principal sees no
    line of the invoice (for a staff member: owns none; for anyone else:
    there is none); otherwise the rows it hands to the renderer are the
    visible lines of that invoice, each once, oldest first.  So a staff
    member can render a sale invoice exactly when that member may append to
    it. *)
Theorem generate_invoice_visibility (inv : string) (u : User.t) (s : store) :
  (User.role u = "staff" ->
   (generate_invoice inv u s = inl NotFound <-> owns_no_sale_line inv u s)
   /\ forall sale_data,
       BulkSalesCreate.items sale_data <> [] ->
       (generate_invoice inv u s = inl NotFound
        <-> fst (add_sale_items_to_invoice inv sale_data u s) = inl PermissionDenied))
  /\ (User.role u <> "staff" ->
      (generate_invoice inv u s = inl NotFound
       <-> forall r, In r (sales s) -> Sales.invoice_no r <> Some inv))
  /\ (forall rows,
      generate_invoice inv u s = inr rows ->
      rows <> []
      /\ oldest_first Sales.created_at rows
      /\ Permutation (filter (invoice_where inv u) (sales s)) rows
      /\ Forall (fun r => Sales.invoice_no r = Some inv) rows).
Proof.
  split; [|split].
  - intros Hrole.
    assert (Hfind : generate_invoice inv u s = inl NotFound
                    <-> find (sale_on_invoice_by inv (User.id u)) (sales s) = None).
    { rewrite generate_invoice_not_found, <- filter_nil_find.
      erewrite filter_ext; [reflexivity|].
      intros r. now apply invoice_where_staff. }
    split.
    + now rewrite Hfind, owns_no_sale_line_find.
    + intros sale_data Hitems.
      now rewrite Hfind, (staff_append_sale_denied inv sale_data u s Hrole Hitems).
  - intros Hrole. rewrite generate_invoice_not_found, filter_nil_find, find_is_none.
    apply String.eqb_neq in Hrole.
    split; intros H r Hin; specialize (H r Hin); unfold invoice_where in *;
      rewrite Hrole, andb_true_r in *; destruct (Sales.invoice_no r) as [i|].
    + intros [= ->]. rewrite String.eqb_refl in H. discriminate.
    + discriminate.
    + apply String.eqb_neq. congruence.
    + reflexivity.
  - intros rows. unfold generate_invoice.
    pose proof (order_asc_perm Sales.created_at
                  (filter (invoice_where inv u) (sales s))) as Hperm.
    pose proof (order_asc_sorted Sales.created_at
                  (filter (invoice_where inv u) (sales s))) as Hsorted.
    destruct (order_asc Sales.created_at (filter (invoice_where inv u) (sales s)))
      as [|r l] eqn:E; [discriminate|].
    intros [= <-]. split; [discriminate|]. split; [exact Hsorted|].
    split; [exact Hperm|].
    apply Forall_forall. intros x Hx.
    apply (Permutation_in _ (Permutation_sym Hperm)) in Hx.
    apply filter_In in Hx as [_ Hx]. unfold invoice_where in Hx.
    apply andb_prop in Hx as [Hx _].
    destruct (Sales.invoice_no x) as [i|]; [|discriminate].
    apply String.eqb_eq in Hx. now subst.
Qed.

Lemma generate_invoice_visibility_witness :
  User.role stranger = "staff"
  /\ (generate_invoice "INV-000007" stranger after_sale = inl NotFound
      <-> owns_no_sale_line "INV-000007" stranger after_sale)
  /\ User.role manager <> "staff"
  /\ (generate_invoice "INV-000007" manager after_sale = inl NotFound
      <-> forall r, In r (sales after_sale) -> Sales.invoice_no r <> Some "INV-000007")
  /\ generate_invoice "INV-000007" clerk after_sale = inr [sold_chairs]
  /\ Forall (fun r => Sales.invoice_no r = Some "INV-000007") [sold_chairs].
Proof.
  destruct (generate_invoice_visibility "INV-000007" stranger after_sale)
    as (Hstaff & _ & _).
  destruct (generate_invoice_visibility "INV-000007" manager after_sale)
    as (_ & Hother & _).
  destruct (generate_invoice_visibility "INV-000007" clerk after_sale)
    as (_ & _ & Hrows).
  split; [reflexivity|]. split; [apply Hstaff; reflexivity|].
  split; [discriminate|]. split; [apply Hother; discriminate|].
  split; [reflexivity|]. now apply Hrows.
Defined.

(** ** The balance of an invoice and the pending total *)

Lemma py_sum_perm (l1 l2 : list amount) :
  Permutation l1 l2 -> py_sum l1 = py_sum l2.
Proof.
  induction 1 as [|x l1 l2 _ IH|x y l|l1 l2 l3 _ IH1 _ IH2].
  - reflexivity.
  - now rewrite !py_sum_cons, IH.
  - rewrite !py_sum_cons. ring.
  - congruence.
Qed.

Lemma py_sum_less_constant {A} (f : A -> amount) (a : amount) (l : list A) :
  py_sum (map (fun x => (f x - a)%Qc) l)
  = (py_sum (map f l) - of_int (Z.of_nat (List.length l)) * a)%Qc.
Proof.
  induction l as [|x l IH].
  - cbn. apply Qc_is_canon. reflexivity.
  - cbn [map List.length]. rewrite !py_sum_cons, IH.
    replace (of_int (Z.of_nat (S (List.length l))))
      with (of_int (Z.of_nat (List.length l)) + Q2Qc 1)%Qc.
    + ring.
    + unfold of_int, Qcplus. apply Q2Qc_eq_iff. rewrite !Q2Qc_this.
      rewrite Nat2Z.inj_succ. unfold Qeq, Qplus, inject_Z. simpl. lia.
Qed.

(** X5: for a store whose sales are the lines of one invoice, all marked
    as paid in advance with the same advance [a] stored on each: the
    rendered invoice shows the total of the visible lines, the advance [a]
    once and the balance total - a, while the dashboard's [total_pending]
    for the same principal is total - n * a, with n the number of those
    lines. *)
Theorem invoice_balance_and_pending (inv : string) (a : amount) (u : User.t)
    (s : store) (rows : list Sales.row) :
  one_advance_invoice inv a s ->
  generate_invoice inv u s = inr rows ->
  exists summary,
    invoice_summary rows = Some summary
    /\ InvoiceSummary.total_amount summary
       = DashboardStats.total_sales (get_dashboard_stats u s)
    /\ InvoiceSummary.total_advance summary = a
    /\ InvoiceSummary.total_remaining summary
       = (InvoiceSummary.total_amount summary - a)%Qc
    /\ InvoiceSummary.is_advance_payment summary = true
    /\ DashboardStats.total_pending (get_dashboard_stats u s)
       = (InvoiceSummary.total_amount summary
          - of_int (Z.of_nat (List.length rows)) * a)%Qc.
Proof.
  intros Hone Hgen. unfold one_advance_invoice in Hone.
  rewrite Forall_forall in Hone.
  assert (Hvis : filter (invoice_where inv u) (sales s)
                 = filter (sales_where u) (sales s)).
  { apply filter_ext_in. intros r Hin. destruct (Hone r Hin) as (Hinv & _).
    unfold invoice_where, sales_where. now rewrite Hinv, String.eqb_refl. }
  unfold generate_invoice in Hgen.
  pose proof (order_asc_perm Sales.created_at
                (filter (invoice_where inv u) (sales s))) as Hperm.
  destruct (order_asc Sales.created_at (filter (invoice_where inv u) (sales s)))
    as [|first rest] eqn:E; [discriminate|].
  injection Hgen as <-. rewrite Hvis in Hperm.
  assert (Hrows : forall r, In r (first :: rest) ->
                    Sales.payment_type r = "2" /\ Sales.advance_amount r = Some a).
  { intros r Hr. apply (Permutation_in _ (Permutation_sym Hperm)) in Hr.
    apply filter_In in Hr as [Hr _]. now destruct (Hone r Hr) as (_ & ? & ?). }
  destruct (Hrows first (or_introl eq_refl)) as [Hpay Hadv].
  eexists. split; [reflexivity|].
  cbn [invoice_summary InvoiceSummary.total_amount InvoiceSummary.total_advance
       InvoiceSummary.total_remaining InvoiceSummary.is_advance_payment].
  rewrite Hadv, or_zero_id, Hpay.
  assert (Htotal : py_sum (map revenue (first :: rest))
                   = DashboardStats.total_sales (get_dashboard_stats u s)).
  { unfold get_dashboard_stats. cbn [DashboardStats.total_sales].
    apply py_sum_perm. apply Permutation_map. now apply Permutation_sym. }
  split; [exact Htotal|]. split; [reflexivity|]. split; [reflexivity|].
  split; [reflexivity|].
  rewrite Htotal.
  unfold get_dashboard_stats.
  cbn [DashboardStats.total_sales DashboardStats.total_pending].
  assert (Hall : filter is_advance (filter (sales_where u) (sales s))
                 = filter (sales_where u) (sales s)).
  { erewrite filter_ext_in with (g := fun _ => true).
    - clear. induction (filter (sales_where u) (sales s)) as [|x l IH];
        simpl; congruence.
    - intros r Hr. apply filter_In in Hr as [Hr _].
      destruct (Hone r Hr) as (_ & Hp & _). unfold is_advance. now rewrite Hp. }
  rewrite Hall.
  erewrite map_ext_in with (g := fun sale => (revenue sale - a)%Qc).
  - rewrite py_sum_less_constant. f_equal. f_equal. f_equal. f_equal.
    now apply Permutation_length.
  - intros r Hr. apply filter_In in Hr as [Hr _].
    destruct (Hone r Hr) as (_ & _ & Ha). unfold advance_paid.
    now rewrite Ha, or_zero_id.
Qed.

Lemma invoice_balance_and_pending_witness :
  one_advance_invoice "INV-000009" (Q2Qc 50) advance_books
  /\ generate_invoice "INV-000009" clerk advance_books
     = inr [advance_line 1; advance_line 2; advance_line 3]
  /\ exists summary,
      invoice_summary [advance_line 1; advance_line 2; advance_line 3] = Some summary
      /\ InvoiceSummary.total_remaining summary
         = (InvoiceSummary.total_amount summary - Q2Qc 50)%Qc
      /\ DashboardStats.total_pending (get_dashboard_stats clerk advance_books)
         = (InvoiceSummary.total_amount summary
            - of_int (Z.of_nat 3) * Q2Qc 50)%Qc.
Proof.
  assert (Hone : one_advance_invoice "INV-000009" (Q2Qc 50) advance_books)
    by (repeat constructor).
  split; [exact Hone|]. split; [reflexivity|].
  destruct (invoice_balance_and_pending "INV-000009" (Q2Qc 50) clerk advance_books
              _ Hone eq_refl) as (summary & Hs & _ & _ & Hrem & _ & Hpend).
  exists summary. split; [exact Hs|]. split; [exact Hrem | exact Hpend].
Defined.

(** ** Guards of the sale mutations *)

Section FirstMatchOthers.
Context {A : Type} (p : A -> bool).

Lemma update_first_keeps_others (f : A -> A) (l : list A) (x : A) :
  In x l -> find p l <> Some x -> In x (update_first p f l).
Proof.
  induction l as [|y l IH]; simpl; [tauto|].
  destruct (p y) eqn:E.
  - intros [->|Hin] Hne; [congruence | now right].
  - intros [->|Hin] Hne; [now left | right; auto].
Qed.

Lemma delete_first_keeps_others (l : list A) (x : A) :
  In x l -> find p l <> Some x -> In x (delete_first p l).
Proof.
  induction l as [|y l IH]; simpl; [tauto|].
  destruct (p y) eqn:E.
  - intros [->|Hin] Hne; [congruence | exact Hin].
  - intros [->|Hin] Hne; [now left | right; auto].
Qed.
End FirstMatchOthers.

(** The three ways a [delete_sale] can go. *)
Lemma delete_sale_cases (sale_id : Z) (restore : bool) (u : User.t) (s : store) :
  match find (sale_has_id sale_id) (sales s) with
  | None => delete_sale sale_id restore u s = (inl NotFound, s)
  | Some existing =>
      if not_permitted u existing
      then delete_sale sale_id restore u s = (inl PermissionDenied, s)
      else exists s2,
          delete_sale sale_id restore u s = (inr tt, s2)
          /\ sales s2 = delete_first (sale_has_id sale_id) (sales s)
          /\ expenses s2 = expenses s
          /\ (restore = false -> inventory s2 = inventory s)
  end.
Proof.
  unfold delete_sale, bind, sales_find_unique, raise_if.
  destruct (find (sale_has_id sale_id) (sales s)) as [existing|] eqn:Hfind;
    cbn; [|reflexivity].
  destruct (not_permitted u existing); cbn; [reflexivity|].
  destruct restore; cbn.
  - unfold inventory_find_first.
    destruct (find (same_product (Sales.product_name existing)
                                 (Sales.category existing)) (inventory s));
      cbn; rewrite Hfind; cbn; eexists; repeat split; discriminate.
  - rewrite Hfind. cbn. eexists. repeat split.
Qed.

(** X8: [update_sale] and [delete_sale] change nothing when they fail, and
    a principal who is not an admin can neither alter nor remove a sale row
    of another principal: such a row is still in the table, as it was,
    after any update or delete request of that principal. *)
Theorem sale_mutations_guarded (sale_id : Z) (upd : SalesUpdate.t)
    (restore : bool) (u : User.t) (s : store) :
  (forall e, fst (update_sale sale_id upd u s) = inl e ->
             snd (update_sale sale_id upd u s) = s)
  /\ (forall e, fst (delete_sale sale_id restore u s) = inl e ->
                snd (delete_sale sale_id restore u s) = s)
  /\ (User.role u <> "admin" ->
      forall row, In row (sales s) -> Sales.sold_by row <> User.id u ->
                  In row (sales (snd (update_sale sale_id upd u s)))
                  /\ In row (sales (snd (delete_sale sale_id restore u s)))).
Proof.
  assert (Hu : snd (update_sale sale_id upd u s) = s).
  { rewrite update_sale_cases.
    destruct (find (sale_has_id sale_id) (sales s)) as [existing|]; [|reflexivity].
    now destruct (not_permitted u existing). }
  rewrite Hu.
  pose proof (delete_sale_cases sale_id restore u s) as Hd.
  destruct (find (sale_has_id sale_id) (sales s)) as [existing|] eqn:Hfind.
  2:{ rewrite Hd. cbn. repeat split; auto. }
  destruct (not_permitted u existing) eqn:Hperm.
  { rewrite Hd. cbn. repeat split; auto. }
  destruct Hd as (s3 & -> & Hs3 & _). cbn.
  split; [reflexivity|]. split; [intros e [=]|].
  intros Hrole row Hin Hother.
  assert (Hne : find (sale_has_id sale_id) (sales s) <> Some row).
  { rewrite Hfind. intros [= ->].
    unfold not_permitted in Hperm. apply String.eqb_neq in Hrole, Hother.
    rewrite Hrole, Hother in Hperm. discriminate. }
  rewrite Hs3. split; [exact Hin|].
  now apply delete_first_keeps_others.
Qed.

Lemma sale_mutations_guarded_witness :
  User.role stranger <> "admin"
  /\ In sold_chairs (sales after_sale)
  /\ Sales.sold_by sold_chairs <> User.id stranger
  /\ In sold_chairs
        (sales (snd (delete_sale 1 true stranger after_sale))).
Proof.
  assert (Hrole : User.role stranger <> "admin") by discriminate.
  assert (Hin : In sold_chairs (sales after_sale)) by (now left).
  assert (Hby : Sales.sold_by sold_chairs <> User.id stranger) by discriminate.
  split; [exact Hrole|]. split; [exact Hin|]. split; [exact Hby|].
  exact (proj2 (proj2 (proj2 (sale_mutations_guarded 1
           (SalesUpdate.mk None None None None None None None)
           true stranger after_sale)) Hrole sold_chairs Hin Hby)).
Defined.

(** ** Splitting and joining the stored name *)

Lemma prefix_drop (sep s : string) :
  String.prefix sep s = true -> s = (sep ++ drop (String.length sep) s)%string.
Proof.
  revert s. induction sep as [|a sep IH]; intros s H.
  - reflexivity.
  - destruct s as [|b s]; [discriminate|].
    rewrite prefix_cons in H. apply andb_prop in H as [Hab Hrest].
    apply Ascii.eqb_eq in Hab. subst b. cbn. f_equal. now apply IH.
Qed.

(** The two parts of a split, joined by the separator, are the string that
    was split. *)
Lemma split_once_sound (sep s a b : string) :
  split_once sep s = Some (a, b) -> s = (a ++ sep ++ b)%string.
Proof.
  revert a b. induction s as [|c s IH]; intros a b; cbn [split_once].
  - destruct (String.prefix sep "") eqn:E; [|discriminate].
    intros [= <- <-]. now apply prefix_drop.
  - destruct (String.prefix sep (String c s)) eqn:E.
    + intros [= <- <-]. now apply prefix_drop.
    + destruct (split_once sep s) as [[a' b']|]; [|discriminate].
      intros [= <- <-]. cbn. f_equal. now apply IH.
Qed.

(** X10: splitting a stored name and joining the two parts again gives the
    stored name back when it contains the delimiter, and the stored name
    followed by " - Unknown" when it does not. *)
Theorem split_then_combine (stored : string) :
  let '(material_name, vendor_name) := split_material_name stored in
  combined_name material_name vendor_name
  = if str_in delimiter stored then stored
    else (stored ++ " - Unknown")%string.
Proof.
  unfold split_material_name.
  destruct (str_in delimiter stored) eqn:Hin.
  - pose proof (split_once_defined _ _ Hin) as Hdef.
    destruct (split_once delimiter stored) as [[m v]|] eqn:E; [|contradiction].
    symmetry. now apply split_once_sound.
  - reflexivity.
Qed.

(** ** Updating and deleting an expense *)

(** The three ways a [delete_expense] can go. *)
Lemma delete_expense_cases (expense_id : Z) (u : User.t) (s : store) :
  match find (expense_has_id expense_id) (expenses s) with
  | None => delete_expense expense_id u s = (inl NotFound, s)
  | Some e =>
      if not_own_expense u e
      then delete_expense expense_id u s = (inl PermissionDenied, s)
      else delete_expense expense_id u s
           = (inr tt,
              with_expenses (delete_first (expense_has_id expense_id) (expenses s)) s)
  end.
Proof.
  unfold delete_expense, bind, expenses_find_unique, expenses_delete, raise_if.
  destruct (find (expense_has_id expense_id) (expenses s)) as [e|] eqn:Hfind;
    cbn; [|reflexivity].
  destruct (not_own_expense u e); cbn; [reflexivity|].
  rewrite Hfind. reflexivity.
Qed.

(** X12: [update_expense] and [delete_expense] change nothing when they
    fail, and a staff member can neither alter nor remove an expense row of
    another principal: such a row is still in the table, as it was, after
    any update or delete request of that member. *)
Theorem expense_mutations_guarded (expense_id : Z) (upd : ExpenseUpdate.t)
    (u : User.t) (s : store) :
  (forall err, fst (update_expense expense_id upd u s) = inl err ->
               snd (update_expense expense_id upd u s) = s)
  /\ (forall err, fst (delete_expense expense_id u s) = inl err ->
                  snd (delete_expense expense_id u s) = s)
  /\ (User.role u = "staff" ->
      forall row, In row (expenses s) -> Expenses.added_by row <> User.id u ->
                  In row (expenses (snd (update_expense expense_id upd u s)))
                  /\ In row (expenses (snd (delete_expense expense_id u s)))).
Proof.
  assert (Hu : snd (update_expense expense_id upd u s) = s).
  { rewrite update_expense_cases.
    destruct (find (expense_has_id expense_id) (expenses s)) as [e|]; [|reflexivity].
    now destruct (not_own_expense u e). }
  rewrite Hu.
  pose proof (delete_expense_cases expense_id u s) as Hd.
  destruct (find (expense_has_id expense_id) (expenses s)) as [e|] eqn:Hfind.
  2:{ rewrite Hd. cbn. repeat split; auto. }
  destruct (not_own_expense u e) eqn:Hown.
  { rewrite Hd. cbn. repeat split; auto. }
  rewrite Hd. cbn.
  split; [reflexivity|]. split; [intros err [=]|].
  intros Hrole row Hin Hother.
  assert (Hne : find (expense_has_id expense_id) (expenses s) <> Some row).
  { rewrite Hfind. intros [= ->].
    unfold not_own_expense in Hown. apply String.eqb_neq in Hother.
    rewrite Hrole, Hother in Hown. discriminate. }
  split; [exact Hin|].
  now apply delete_first_keeps_others.
Qed.

Lemma expense_mutations_guarded_witness :
  User.role stranger = "staff"
  /\ In managers_expense (expenses managers_books)
  /\ Expenses.added_by managers_expense <> User.id stranger
  /\ In managers_expense (expenses (snd (delete_expense 1 stranger managers_books))).
Proof.
  assert (Hin : In managers_expense (expenses managers_books)) by (now left).
  assert (Hby : Expenses.added_by managers_expense <> User.id stranger) by discriminate.
  split; [reflexivity|]. split; [exact Hin|]. split; [exact Hby|].
  exact (proj2 (proj2 (proj2 (expense_mutations_guarded 1 mark_used stranger
                                managers_books)) eq_refl managers_expense Hin Hby)).
Defined.

(** ** The expense handlers that write *)


(** ** Months and years of the reports *)

Lemma created_in_month (y m : Z) (t : datetime) :
  1 <= m <= 12 -> well_formed t ->
  created_in (month_bounds y m) t = in_month y m t.
Proof.
  intros Hm (Hmo & Hd & Ht).
  unfold created_in, month_bounds, datetime_ge, datetime_lt, in_month.
  cbn [fst snd].
  destruct (Z.ltb_spec m 12); cbn [year month day time_of_day];
    repeat match goal with
           | |- context [?a <? ?b] => destruct (Z.ltb_spec a b)
           | |- context [?a =? ?b] => destruct (Z.eqb_spec a b)
           end; cbn; try reflexivity; lia.
Qed.

Section Buckets.
Context {A : Type} (created_at : A -> datetime) (f : A -> amount).

Lemma month_rows (y m : Z) (l : list A) :
  1 <= m <= 12 ->
  Forall (fun x => well_formed (created_at x)) l ->
  filter (fun x => created_in (month_bounds y m) (created_at x)) l
  = filter (fun x => in_month y m (created_at x)) l.
Proof.
  intros Hm Hl. induction Hl as [|x l Hx _ IH]; [reflexivity|].
  cbn. now rewrite IH, (created_in_month y m _ Hm Hx).
Qed.

(** What row [x] adds to the figure of month [m]. *)
Let share (y : Z) (x : A) (m : Z) : amount :=
  if in_month y m (created_at x) then f x else Q2Qc 0.

Lemma py_sum_pointwise (a b : Z -> amount) (l : list Z) :
  py_sum (map (fun m => (a m + b m)%Qc) l)
  = (py_sum (map a l) + py_sum (map b l))%Qc.
Proof.
  induction l as [|m l IH]; cbn [map].
  - rewrite !py_sum_nil. ring.
  - rewrite !py_sum_cons, IH. ring.
Qed.

Lemma share_of_year (y : Z) (x : A) :
  1 <= month (created_at x) <= 12 ->
  py_sum (map (share y x) range_1_13)
  = if in_year y (created_at x) then f x else Q2Qc 0.
Proof.
  intros Hm. unfold share, in_month, in_year, range_1_13.
  destruct (year (created_at x) =? y); cbn [andb map].
  - assert (Hcases : month (created_at x) = 1 \/ month (created_at x) = 2
                     \/ month (created_at x) = 3 \/ month (created_at x) = 4
                     \/ month (created_at x) = 5 \/ month (created_at x) = 6
                     \/ month (created_at x) = 7 \/ month (created_at x) = 8
                     \/ month (created_at x) = 9 \/ month (created_at x) = 10
                     \/ month (created_at x) = 11 \/ month (created_at x) = 12)
      by lia.
    repeat (destruct Hcases as [-> | Hcases]); try rewrite Hcases;
      cbn [Z.eqb Pos.eqb]; rewrite !py_sum_cons, py_sum_nil; ring.
  - rewrite !py_sum_cons, py_sum_nil. ring.
Qed.

(** The twelve months of a year share out its rows: the figures of the
    months add up to the figure of the year. *)
Lemma months_share_out_year (y : Z) (l : list A) :
  Forall (fun x => well_formed (created_at x)) l ->
  py_sum (map (fun m => py_sum (map f (filter (fun x => in_month y m (created_at x)) l)))
              range_1_13)
  = py_sum (map f (filter (fun x => in_year y (created_at x)) l)).
Proof.
  induction 1 as [|x l Hx _ IH]; [reflexivity|].
  transitivity (py_sum (map (share y x) range_1_13)
                + py_sum (map (fun m => py_sum (map f (filter (fun x => in_month y m (created_at x)) l)))
                              range_1_13))%Qc.
  - rewrite <- py_sum_pointwise. f_equal. apply map_ext. intros m.
    unfold share. cbn [filter].
    destruct (in_month y m (created_at x)); cbn [map].
    + now rewrite py_sum_cons.
    + ring.
  - rewrite IH, (share_of_year y x (proj1 Hx)). cbn [filter].
    destruct (in_year y (created_at x)); cbn [map].
    + now rewrite py_sum_cons.
    + ring.
Qed.

End Buckets.

Lemma report_month_figures (y m : Z) (s : store) (st : report_state) :
  1 <= y <= 9998 -> 1 <= m <= 12 ->
  exists st',
    report_month y s st m = Some st'
    /\ monthly_data st'
       = monthly_data st
         ++ [MonthlyData.mk
               (nth (Z.to_nat (m - 1)) month_names "") m
               (round2 (py_sum (map revenue (month_sales y m s))))
               (round2 (py_sum (map Expenses.amount_ (month_expense_rows y m s))))
               (round2 (py_sum (map revenue (month_sales y m s))
                        - py_sum (map cogs (month_sales y m s))
                        - py_sum (map Expenses.amount_ (month_expense_rows y m s))))]
    /\ total_revenue st'
       = (total_revenue st + py_sum (map revenue (month_sales y m s)))%Qc
    /\ total_cogs st'
       = (total_cogs st + py_sum (map cogs (month_sales y m s)))%Qc
    /\ total_expenses st'
       = (total_expenses st
          + py_sum (map Expenses.amount_ (month_expense_rows y m s)))%Qc.
Proof.
  intros Hy Hm. unfold report_month.
  rewrite (month_filter_in_range y m) by lia.
  eexists. split; [reflexivity|]. cbn. repeat split.
Qed.

Lemma report_loop_figures (y : Z) (s : store) (months : list Z) :
  1 <= y <= 9998 ->
  Forall (fun m => 1 <= m <= 12) months ->
  forall st, exists st',
    report_loop y s months st = Some st'
    /\ map MonthlyData.month_number (monthly_data st')
       = map MonthlyData.month_number (monthly_data st) ++ months
    /\ map MonthlyData.revenue (monthly_data st')
       = map MonthlyData.revenue (monthly_data st)
         ++ map (fun m => round2 (py_sum (map revenue (month_sales y m s)))) months
    /\ map MonthlyData.expenses (monthly_data st')
       = map MonthlyData.expenses (monthly_data st)
         ++ map (fun m => round2 (py_sum (map Expenses.amount_
                                              (month_expense_rows y m s)))) months
    /\ total_revenue st'
       = (total_revenue st
          + py_sum (map (fun m => py_sum (map revenue (month_sales y m s))) months))%Qc
    /\ total_cogs st'
       = (total_cogs st
          + py_sum (map (fun m => py_sum (map cogs (month_sales y m s))) months))%Qc
    /\ total_expenses st'
       = (total_expenses st
          + py_sum (map (fun m => py_sum (map Expenses.amount_
                                              (month_expense_rows y m s))) months))%Qc.
Proof.
  intros Hy Hmonths. unfold report_loop.
  induction Hmonths as [|m months Hm _ IH]; intros st; cbn [fold_left map].
  - exists st. split; [reflexivity|]. rewrite !app_nil_r, py_sum_nil.
    repeat split; ring.
  - destruct (report_month_figures y m s st Hy Hm)
      as (st1 & Hrun & Hdata & Hrev & Hcogs & Hexp).
    rewrite Hrun. destruct (IH st1) as (st' & Hloop & Hnum & Hr & He & Htr & Htc & Hte).
    exists st'. split; [exact Hloop|].
    rewrite Hnum, Hr, He, Htr, Htc, Hte, Hdata, Hrev, Hcogs, Hexp.
    rewrite !map_app, <- !app_assoc, !py_sum_cons. cbn [map app MonthlyData.month_number
      MonthlyData.revenue MonthlyData.expenses].
    repeat split; ring.
Qed.

(** The figures of the report as it computes them, each rounded to two
    decimals. *)
Lemma report_figures_rounded (y : Z) (u : User.t) (s : store) :
  1 <= y <= 9998 -> dated s ->
  exists report,
    get_monthly_report y u s = Some report
    /\ map MonthlyData.month_number (MonthlyReportResponse.months report)
       = range_1_13
    /\ map MonthlyData.revenue (MonthlyReportResponse.months report)
       = map (fun m => round2 (py_sum (map revenue
                 (filter (fun r => in_month y m (Sales.created_at r)) (sales s)))))
             range_1_13
    /\ map MonthlyData.expenses (MonthlyReportResponse.months report)
       = map (fun m => round2 (py_sum (map Expenses.amount_
                 (filter (fun e => in_month y m (Expenses.created_at e)) (expenses s)))))
             range_1_13
    /\ MonthlyReportResponse.total_revenue report
       = round2 (py_sum (map revenue (year_sales y s)))
    /\ MonthlyReportResponse.total_expenses report
       = round2 (py_sum (map Expenses.amount_ (year_expenses y s)))
    /\ MonthlyReportResponse.total_profit report
       = round2 (py_sum (map revenue (year_sales y s))
                 - py_sum (map cogs (year_sales y s))
                 - py_sum (map Expenses.amount_ (year_expenses y s))).
Proof.
  intros Hy [Hsales Hexpenses].
  assert (Hrange : Forall (fun m => 1 <= m <= 12) range_1_13)
    by (unfold range_1_13; repeat constructor; lia).
  destruct (report_loop_figures y s range_1_13 Hy Hrange
              (mk_report_state [] (Q2Qc 0) (Q2Qc 0) (Q2Qc 0)))
    as (st & Hloop & Hnum & Hr & He & Htr & Htc & Hte).
  cbn [monthly_data total_revenue total_cogs total_expenses map app] in *.
  assert (Hms : forall m, In m range_1_13 ->
                month_sales y m s
                = filter (fun r => in_month y m (Sales.created_at r)) (sales s)).
  { intros m Hin. apply month_rows; [|exact Hsales].
    exact (proj1 (Forall_forall _ _) Hrange m Hin). }
  assert (Hme : forall m, In m range_1_13 ->
                month_expense_rows y m s
                = filter (fun e => in_month y m (Expenses.created_at e)) (expenses s)).
  { intros m Hin. apply month_rows; [|exact Hexpenses].
    exact (proj1 (Forall_forall _ _) Hrange m Hin). }
  assert (Hrev : total_revenue st = py_sum (map revenue (year_sales y s))).
  { rewrite Htr. unfold year_sales.
    rewrite <- (months_share_out_year Sales.created_at revenue y _ Hsales).
    rewrite (map_ext_in _ _ _ (fun m Hin => f_equal (fun l => py_sum (map revenue l))
                                                    (Hms m Hin))).
    ring. }
  assert (Hcogs : total_cogs st = py_sum (map cogs (year_sales y s))).
  { rewrite Htc. unfold year_sales.
    rewrite <- (months_share_out_year Sales.created_at cogs y _ Hsales).
    rewrite (map_ext_in _ _ _ (fun m Hin => f_equal (fun l => py_sum (map cogs l))
                                                    (Hms m Hin))).
    ring. }
  assert (Hexp : total_expenses st
                 = py_sum (map Expenses.amount_ (year_expenses y s))).
  { rewrite Hte. unfold year_expenses.
    rewrite <- (months_share_out_year Expenses.created_at Expenses.amount_ y _ Hexpenses).
    rewrite (map_ext_in _ _ _ (fun m Hin =>
               f_equal (fun l => py_sum (map Expenses.amount_ l)) (Hme m Hin))).
    ring. }
  unfold get_monthly_report. rewrite Hloop.
  eexists. split; [reflexivity|].
  cbn [MonthlyReportResponse.months MonthlyReportResponse.total_revenue
       MonthlyReportResponse.total_expenses MonthlyReportResponse.total_profit].
  split; [exact Hnum|].
  split; [rewrite Hr; apply map_ext_in; intros m Hin; now rewrite (Hms m Hin)|].
  split; [rewrite He; apply map_ext_in; intros m Hin; now rewrite (Hme m Hin)|].
  now rewrite Hrev, Hcogs, Hexp.
Qed.

Lemma whole_cents_py_sum {A} (f : A -> amount) (l : list A) :
  Forall (fun x => whole_cents (f x)) l -> whole_cents (py_sum (map f l)).
Proof.
  induction 1 as [|x l Hx Hl IH]; cbn [map].
  - apply whole_cents_0.
  - rewrite py_sum_cons. now apply whole_cents_plus.
Qed.

(** In a store priced in whole cents every sum the reports form over some
    of its rows is a whole number of cents. *)
Lemma priced_revenue (s : store) (p : Sales.row -> bool) :
  priced_in_cents s -> whole_cents (py_sum (map revenue (filter p (sales s)))).
Proof.
  intros [Hsales _]. apply whole_cents_py_sum, Forall_filter.
  eapply Forall_impl; [|exact Hsales]. intros r [Hp _]. now apply whole_cents_times.
Qed.

Lemma priced_cogs (s : store) (p : Sales.row -> bool) :
  priced_in_cents s -> whole_cents (py_sum (map cogs (filter p (sales s)))).
Proof.
  intros [Hsales _]. apply whole_cents_py_sum, Forall_filter.
  eapply Forall_impl; [|exact Hsales]. intros r [_ Hc]. now apply whole_cents_times.
Qed.

Lemma priced_expenses (s : store) (p : Expenses.row -> bool) :
  priced_in_cents s
  -> whole_cents (py_sum (map Expenses.amount_ (filter p (expenses s)))).
Proof.
  intros [_ Hexp]. now apply whole_cents_py_sum, Forall_filter.
Qed.

(** X15: for a year in 1..9998 and a store whose rows carry well-formed
    timestamps and whose prices, costs and amounts are whole numbers of
    cents, [get_monthly_report] returns twelve entries, numbered 1 to 12 in
    order; the entry of month m shows the revenue and the expenses of the
    rows whose timestamp has that year and that month; and the yearly totals
    are the figures of the rows whose timestamp has that year, so every row
    of the year is counted in exactly one month and once in the totals. *)
Theorem report_counts_year (y : Z) (u : User.t) (s : store) :
  1 <= y <= 9998 -> dated s -> priced_in_cents s ->
  exists report,
    get_monthly_report y u s = Some report
    /\ map MonthlyData.month_number (MonthlyReportResponse.months report)
       = range_1_13
    /\ map MonthlyData.revenue (MonthlyReportResponse.months report)
       = map (fun m => py_sum (map revenue
                 (filter (fun r => in_month y m (Sales.created_at r)) (sales s))))
             range_1_13
    /\ map MonthlyData.expenses (MonthlyReportResponse.months report)
       = map (fun m => py_sum (map Expenses.amount_
                 (filter (fun e => in_month y m (Expenses.created_at e)) (expenses s))))
             range_1_13
    /\ MonthlyReportResponse.total_revenue report
       = py_sum (map revenue (year_sales y s))
    /\ MonthlyReportResponse.total_expenses report
       = py_sum (map Expenses.amount_ (year_expenses y s))
    /\ MonthlyReportResponse.total_profit report
       = (py_sum (map revenue (year_sales y s))
          - py_sum (map cogs (year_sales y s))
          - py_sum (map Expenses.amount_ (year_expenses y s)))%Qc.
Proof.
  intros Hy Hdated Hcents.
  destruct (report_figures_rounded y u s Hy Hdated)
    as (report & Hrun & Hnum & Hr & He & Htr & Hte & Htp).
  exists report. split; [exact Hrun|]. split; [exact Hnum|].
  split; [rewrite Hr; apply map_ext; intros m;
          now apply round2_whole_cents, priced_revenue|].
  split; [rewrite He; apply map_ext; intros m;
          now apply round2_whole_cents, priced_expenses|].
  split; [rewrite Htr; now apply round2_whole_cents, priced_revenue|].
  split; [rewrite Hte; now apply round2_whole_cents, priced_expenses|].
  rewrite Htp. apply round2_whole_cents.
  repeat apply whole_cents_minus;
    [now apply priced_revenue | now apply priced_cogs | now apply priced_expenses].
Qed.

Lemma managers_books_dated : dated managers_books.
Proof.
  split; repeat constructor; cbn; lia.
Qed.

Lemma managers_books_priced : priced_in_cents managers_books.
Proof.
  split; repeat constructor.
  - exists 10000. now apply Q2Qc_eq_iff.
  - exists 6000. now apply Q2Qc_eq_iff.
  - exists 1000. now apply Q2Qc_eq_iff.
Qed.

Lemma report_counts_year_witness :
  1 <= 2024 <= 9998 /\ dated managers_books /\ priced_in_cents managers_books
  /\ exists report,
      get_monthly_report 2024 clerk managers_books = Some report
      /\ MonthlyReportResponse.total_revenue report
         = py_sum (map revenue (year_sales 2024 managers_books)).
Proof.
  split; [lia|]. split; [exact managers_books_dated|].
  split; [exact managers_books_priced|].
  destruct (report_counts_year 2024 clerk managers_books
              ltac:(lia) managers_books_dated managers_books_priced)
    as (report & Hrun & _ & _ & _ & Hrev & _).
  exists report. split; [exact Hrun | exact Hrev].
Defined.

(** ** The detail of a month *)



Section FilteredListing.
Context {A B : Type} (created_at : A -> datetime) (line : A -> B).



End FilteredListing.








(** ** Editing and removing products *)

Lemma sales_figures_same (v : User.t) (s s' : store) :
  sales s' = sales s -> expenses s' = expenses s ->
  sales_figures (get_dashboard_stats v s') = sales_figures (get_dashboard_stats v s).
Proof.
  intros Hs He. unfold sales_figures, get_dashboard_stats. cbn.
  now rewrite Hs, He.
Qed.

Section FirstMatchFacts.
Context {A : Type} (p : A -> bool).

Lemma update_first_length (f : A -> A) (l : list A) :
  List.length (update_first p f l) = List.length l.
Proof.
  induction l as [|x l IH]; cbn; [reflexivity|].
  destruct (p x); cbn; [reflexivity | now rewrite IH].
Qed.

Lemma update_first_In (f : A -> A) (l : list A) (x : A) :
  find p l = Some x -> In (f x) (update_first p f l).
Proof.
  induction l as [|y l IH]; cbn; [discriminate|].
  destruct (p y).
  - intros [= ->]. now left.
  - intros H. right. now apply IH.
Qed.

Lemma update_first_unmatched (f : A -> A) (l : list A) (x : A) :
  In x l -> p x = false -> In x (update_first p f l).
Proof.
  induction l as [|y l IH]; cbn; [easy|].
  intros [<- | Hin] Hx.
  - rewrite Hx. now left.
  - destruct (p y); [now right | right; now apply IH].
Qed.

Lemma delete_first_length (l : list A) (x : A) :
  find p l = Some x -> S (List.length (delete_first p l)) = List.length l.
Proof.
  induction l as [|y l IH]; cbn; [discriminate|].
  destruct (p y); cbn; [reflexivity|].
  intros H. now rewrite (IH H).
Qed.

Lemma delete_first_unmatched (l : list A) (x : A) :
  In x l -> p x = false -> In x (delete_first p l).
Proof.
  induction l as [|y l IH]; cbn; [easy|].
  intros [<- | Hin] Hx.
  - rewrite Hx. now left.
  - destruct (p y); [assumption | right; now apply IH].
Qed.

(** Removing the row found by [p], when it is the only one that passes [g],
    leaves no row that passes [g]. *)
Lemma only_match_removed (g : A -> bool) (l : list A) (x : A) :
  find p l = Some x -> filter g l = [x] ->
  find g (delete_first p l) = None.
Proof.
  induction l as [|y l IH]; cbn; [discriminate|].
  destruct (p y) eqn:Hp.
  - intros [= ->]. destruct (g x) eqn:Hg.
    + intros [= Hrest]. apply find_is_none. intros z Hz.
      destruct (g z) eqn:Hgz; [|reflexivity].
      assert (Hin : In z (filter g l)) by (apply filter_In; now split).
      now rewrite Hrest in Hin.
    + intros Hrest.
      assert (Hin : In x (filter g l)) by (rewrite Hrest; now left).
      apply filter_In in Hin as [_ Hgx]. congruence.
  - intros Hfind. destruct (g y) eqn:Hg.
    + intros [= -> _]. apply find_some in Hfind as [_ Hpx]. congruence.
    + intros Hrest. cbn. rewrite Hg. now apply IH.
Qed.

End FirstMatchFacts.

(** X18: [update_inventory_product] consults neither role nor ownership.
    It fails, with status 404 and no change, exactly when no product has
    the key; otherwise it rewrites that product in place, keeping its key,
    invoice number, owner and timestamp and marking it as edited, and
    leaves every product with another key as it was.  A [sale_price] in the
    request has no effect.  Sales and expenses are not touched, so for
    every principal the dashboard figures computed from them, profit
    included, are what they were: sale rows keep the cost they were
    entered with. *)
Theorem inventory_update_local (product_id : Z) (product : InventoryUpdate.t)
    (u : User.t) (s : store) :
  match find (has_id product_id) (inventory s) with
  | None => update_inventory_product product_id product u s = (inl NotFound, s)
  | Some existing =>
      exists updated s',
        update_inventory_product product_id product u s = (inr updated, s')
        /\ In updated (inventory s')
        /\ Inventory.id updated = Inventory.id existing
        /\ Inventory.invoice_no updated = Inventory.invoice_no existing
        /\ Inventory.added_by updated = Inventory.added_by existing
        /\ Inventory.created_at updated = Inventory.created_at existing
        /\ Inventory.edited updated = true
        /\ (forall x, In x (inventory s) -> has_id product_id x = false ->
                      In x (inventory s'))
        /\ List.length (inventory s') = List.length (inventory s)
        /\ (forall v, sales_figures (get_dashboard_stats v s')
                      = sales_figures (get_dashboard_stats v s))
        /\ (forall sale_price u',
               update_inventory_product product_id
                 (with_sale_price sale_price product) u' s = (inr updated, s'))
  end.
Proof.
  unfold update_inventory_product, bind, inventory_find_unique.
  destruct (find (has_id product_id) (inventory s)) as [existing|] eqn:Hfind;
    [|reflexivity].
  eexists _, _. split; [reflexivity|]. cbn.
  split; [now apply update_first_In|].
  do 5 (split; [reflexivity|]).
  split; [intros x Hin Hx; now apply update_first_unmatched|].
  split; [apply update_first_length|].
  split; [intros v; now apply sales_figures_same|].
  reflexivity.
Qed.

Lemma delete_inventory_cases (product_id : Z) (u : User.t) (s : store) :
  match find (has_id product_id) (inventory s) with
  | None => delete_inventory_product product_id u s = (inl NotFound, s)
  | Some _ =>
      delete_inventory_product product_id u s
      = (inr tt, with_inventory (delete_first (has_id product_id) (inventory s)) s)
  end.
Proof.
  unfold delete_inventory_product, bind, inventory_find_unique.
  now destruct (find (has_id product_id) (inventory s)).
Qed.

Lemma delete_sale_skips_restore (sale_id : Z) (u : User.t) (s : store)
    (row : Sales.row) :
  find (sale_has_id sale_id) (sales s) = Some row ->
  find (same_product (Sales.product_name row) (Sales.category row)) (inventory s)
  = None ->
  delete_sale sale_id true u s = delete_sale sale_id false u s.
Proof.
  intros Hrow Hnone.
  unfold delete_sale, bind, sales_find_unique, raise_if, inventory_find_first.
  rewrite Hrow. destruct (not_permitted u row); [reflexivity|].
  cbn. now rewrite Hnone.
Qed.

(** X19: [delete_inventory_product], by any principal, removes the product
    that has the key and only that one, leaving sales and expenses alone.
    When the removed product was the only one with the name and category
    of a sale row, a later [delete_sale] of that row with
    [restore_inventory] still goes through but credits no product: it does
    what a delete without restore does. *)
Theorem product_removed_then_restore (product_id sale_id : Z) (u v : User.t)
    (s : store) (row : Sales.row) (p : Inventory.row) :
  find (sale_has_id sale_id) (sales s) = Some row ->
  not_permitted u row = false ->
  find (has_id product_id) (inventory s) = Some p ->
  filter (same_product (Sales.product_name row) (Sales.category row)) (inventory s)
  = [p] ->
  exists s1 s2,
    delete_inventory_product product_id v s = (inr tt, s1)
    /\ inventory s1 = delete_first (has_id product_id) (inventory s)
    /\ S (List.length (inventory s1)) = List.length (inventory s)
    /\ (forall x, In x (inventory s) -> has_id product_id x = false ->
                  In x (inventory s1))
    /\ sales s1 = sales s /\ expenses s1 = expenses s
    /\ delete_sale sale_id true u s1 = (inr tt, s2)
    /\ delete_sale sale_id false u s1 = (inr tt, s2)
    /\ inventory s2 = inventory s1
    /\ sales s2 = delete_first (sale_has_id sale_id) (sales s).
Proof.
  intros Hrow Hperm Hp Honly.
  pose proof (delete_inventory_cases product_id v s) as Hdel. rewrite Hp in Hdel.
  set (s1 := with_inventory (delete_first (has_id product_id) (inventory s)) s) in *.
  assert (Hnone : find (same_product (Sales.product_name row) (Sales.category row))
                       (inventory s1) = None)
    by (apply (only_match_removed (has_id product_id) _ _ p Hp Honly)).
  assert (Hrow1 : find (sale_has_id sale_id) (sales s1) = Some row) by exact Hrow.
  pose proof (delete_sale_cases sale_id false u s1) as Hcases.
  rewrite Hrow1, Hperm in Hcases.
  destruct Hcases as (s2 & Hrun & Hsales & _ & Hinv).
  exists s1, s2. split; [exact Hdel|]. split; [reflexivity|].
  split; [exact (delete_first_length (has_id product_id) _ p Hp)|].
  split; [intros x Hin Hx; now apply delete_first_unmatched|].
  split; [reflexivity|]. split; [reflexivity|].
  split; [now rewrite (delete_sale_skips_restore sale_id u s1 row Hrow1 Hnone)|].
  split; [exact Hrun|]. split; [now apply Hinv | exact Hsales].
Qed.

Lemma product_removed_then_restore_witness :
  find (sale_has_id 1) (sales after_sale) = Some sold_chairs
  /\ not_permitted clerk sold_chairs = false
  /\ find (has_id 1) (inventory after_sale) = Some (Inventory.set_quantity 3 chair)
  /\ exists s1 s2,
      delete_inventory_product 1 stranger after_sale = (inr tt, s1)
      /\ delete_sale 1 true clerk s1 = (inr tt, s2)
      /\ inventory s2 = inventory s1.
Proof.
  assert (Hrow : find (sale_has_id 1) (sales after_sale) = Some sold_chairs)
    by reflexivity.
  assert (Hperm : not_permitted clerk sold_chairs = false) by reflexivity.
  assert (Hp : find (has_id 1) (inventory after_sale)
               = Some (Inventory.set_quantity 3 chair)) by reflexivity.
  assert (Honly : filter (same_product (Sales.product_name sold_chairs)
                                       (Sales.category sold_chairs))
                         (inventory after_sale)
                  = [Inventory.set_quantity 3 chair]) by reflexivity.
  split; [exact Hrow|]. split; [exact Hperm|]. split; [exact Hp|].
  destruct (product_removed_then_restore 1 1 clerk stranger after_sale sold_chairs
              (Inventory.set_quantity 3 chair) Hrow Hperm Hp Honly)
    as (s1 & s2 & Hdel & _ & _ & _ & _ & _ & Hrun & _ & Hinv & _).
  exists s1, s2. split; [exact Hdel|]. split; [exact Hrun | exact Hinv].
Defined.

(** ** Rendering an expense invoice *)

Lemma expense_invoice_where_staff (inv : string) (u : User.t) (e : Expenses.row) :
  User.role u = "staff" ->
  expense_invoice_where inv u e = expense_on_invoice_by inv (User.id u) e.
Proof.
  intros Hrole. unfold expense_invoice_where, expense_on_invoice_by. now rewrite Hrole.
Qed.

Lemma generate_expense_invoice_not_found (inv : string) (u : User.t) (s : store) :
  generate_expense_invoice_pdf inv u s = inl NotFound
  <-> filter (expense_invoice_where inv u) (expenses s) = [].
Proof.
  unfold generate_expense_invoice_pdf.
  destruct (order_asc Expenses.created_at
              (filter (expense_invoice_where inv u) (expenses s)))
    as [|r l] eqn:E.
  - apply order_asc_nil in E. now split.
  - split; [discriminate|]. intros H. rewrite H in E. discriminate.
Qed.

(** A staff member's append to an expense invoice is refused for want of
    permission exactly when the ownership query finds nothing. *)
Lemma staff_append_expense_denied (inv : string) (expense_data : BulkExpenseCreate.t)
    (u : User.t) (s : store) :
  User.role u = "staff" -> BulkExpenseCreate.items expense_data <> [] ->
  fst (add_expense_items_to_invoice inv expense_data u s) = inl PermissionDenied
  <-> find (expense_on_invoice_by inv (User.id u)) (expenses s) = None.
Proof.
  intros Hrole Hitems. rewrite add_expense_items_cases.
  destruct (BulkExpenseCreate.items expense_data) as [|item rest]; [easy|].
  apply String.eqb_eq in Hrole. rewrite Hrole.
  destruct (find (expense_on_invoice_by inv (User.id u)) (expenses s)); cbn [fst];
    [split; discriminate | now split].
Qed.

(** X20: [generate_expense_invoice_pdf] answers 404 exactly when the
    principal sees no line of the invoice (for a staff member: owns none;
    for anyone else: there is none); otherwise the rows it hands to the
    renderer are the visible lines of that invoice, each once, oldest first.
    So a staff member can render an expense invoice exactly when a request
    of that member to append items to it is not refused with 403. *)
Theorem expense_invoice_visibility (inv : string) (u : User.t) (s : store) :
  (User.role u = "staff" ->
   (generate_expense_invoice_pdf inv u s = inl NotFound
    <-> owns_no_expense_line inv u s)
   /\ forall expense_data,
       BulkExpenseCreate.items expense_data <> [] ->
       (generate_expense_invoice_pdf inv u s = inl NotFound
        <-> fst (add_expense_items_to_invoice inv expense_data u s)
            = inl PermissionDenied))
  /\ (User.role u <> "staff" ->
      (generate_expense_invoice_pdf inv u s = inl NotFound
       <-> forall e, In e (expenses s) -> Expenses.invoice_no e <> Some inv))
  /\ (forall rows,
      generate_expense_invoice_pdf inv u s = inr rows ->
      rows <> []
      /\ oldest_first Expenses.created_at rows
      /\ Permutation (filter (expense_invoice_where inv u) (expenses s)) rows
      /\ Forall (fun e => Expenses.invoice_no e = Some inv) rows).
Proof.
  split; [|split].
  - intros Hrole.
    assert (Hfind : generate_expense_invoice_pdf inv u s = inl NotFound
                    <-> find (expense_on_invoice_by inv (User.id u)) (expenses s) = None).
    { rewrite generate_expense_invoice_not_found, <- filter_nil_find.
      erewrite filter_ext; [reflexivity|].
      intros e. now apply expense_invoice_where_staff. }
    split.
    + now rewrite Hfind, owns_no_expense_line_find.
    + intros expense_data Hitems.
      now rewrite Hfind, (staff_append_expense_denied inv expense_data u s Hrole Hitems).
  - intros Hrole.
    rewrite generate_expense_invoice_not_found, filter_nil_find, find_is_none.
    apply String.eqb_neq in Hrole.
    split; intros H e Hin; specialize (H e Hin); unfold expense_invoice_where in *;
      rewrite Hrole, andb_true_r in *; destruct (Expenses.invoice_no e) as [i|].
    + intros [= ->]. rewrite String.eqb_refl in H. discriminate.
    + discriminate.
    + apply String.eqb_neq. congruence.
    + reflexivity.
  - intros rows. unfold generate_expense_invoice_pdf.
    pose proof (order_asc_perm Expenses.created_at
                  (filter (expense_invoice_where inv u) (expenses s))) as Hperm.
    pose proof (order_asc_sorted Expenses.created_at
                  (filter (expense_invoice_where inv u) (expenses s))) as Hsorted.
    destruct (order_asc Expenses.created_at
                (filter (expense_invoice_where inv u) (expenses s)))
      as [|r l] eqn:E; [discriminate|].
    intros [= <-]. split; [discriminate|]. split; [exact Hsorted|].
    split; [exact Hperm|].
    apply Forall_forall. intros x Hx.
    apply (Permutation_in _ (Permutation_sym Hperm)) in Hx.
    apply filter_In in Hx as [_ Hx]. unfold expense_invoice_where in Hx.
    apply andb_prop in Hx as [Hx _].
    destruct (Expenses.invoice_no x) as [i|]; [|discriminate].
    apply String.eqb_eq in Hx. now subst.
Qed.

Lemma expense_invoice_visibility_witness :
  User.role stranger = "staff"
  /\ (generate_expense_invoice_pdf "EXP-000008" stranger glue_bought = inl NotFound
      <-> owns_no_expense_line "EXP-000008" stranger glue_bought)
  /\ User.role manager <> "staff"
  /\ (generate_expense_invoice_pdf "EXP-000008" manager glue_bought = inl NotFound
      <-> forall e, In e (expenses glue_bought)
                    -> Expenses.invoice_no e <> Some "EXP-000008")
  /\ generate_expense_invoice_pdf "EXP-000008" clerk glue_bought = inr [bought_glue]
  /\ Forall (fun e => Expenses.invoice_no e = Some "EXP-000008") [bought_glue].
Proof.
  destruct (expense_invoice_visibility "EXP-000008" stranger glue_bought)
    as (Hstaff & _ & _).
  destruct (expense_invoice_visibility "EXP-000008" manager glue_bought)
    as (_ & Hother & _).
  destruct (expense_invoice_visibility "EXP-000008" clerk glue_bought)
    as (_ & _ & Hrows).
  split; [reflexivity|]. split; [apply Hstaff; reflexivity|].
  split; [discriminate|]. split; [apply Hother; discriminate|].
  split; [reflexivity|]. now apply Hrows.
Defined.

(** ** Invoice numbers *)

Lemma digits_of_zeros (n : nat) (s : string) :
  option_map Z.of_uint (NilEmpty.uint_of_string (zeros n ++ s))
  = option_map Z.of_uint (NilEmpty.uint_of_string s).
Proof.
  induction n as [|n IH]; [reflexivity|].
  cbn [zeros String.append NilEmpty.uint_of_string]. rewrite <- IH.
  now destruct (NilEmpty.uint_of_string (zeros n ++ s)).
Qed.

Lemma digits_of_uint (d : Decimal.uint) :
  option_map Z.of_uint (NilEmpty.uint_of_string (NilZero.string_of_uint d))
  = Some (Z.of_uint d).
Proof.
  destruct d; try reflexivity;
    unfold NilZero.string_of_uint; now rewrite NilEmpty.usu.
Qed.

Lemma unsigned_head (d : Decimal.uint) :
  exists c s', NilZero.string_of_uint d = String c s'
               /\ (Ascii.eqb c "+" || Ascii.eqb c "-")%bool = false.
Proof.
  destruct d; cbn; eexists _, _; split; reflexivity.
Qed.

Lemma str_of_int_unsigned (v : Z) :
  0 <= v ->
  exists d, str_of_int v = NilZero.string_of_uint d /\ Z.of_uint d = v.
Proof.
  intros Hv. unfold str_of_int. pose proof (DecimalZ.of_to v) as Hback.
  destruct v as [|p|p]; [| |lia].
  - now exists (Decimal.D0 Decimal.Nil).
  - exists (Pos.to_uint p). split; [reflexivity | exact Hback].
Qed.

Lemma zfill_unsigned (width : nat) (d : Decimal.uint) :
  exists n, zfill width (NilZero.string_of_uint d)
            = (zeros n ++ NilZero.string_of_uint d)%string.
Proof.
  unfold zfill.
  destruct (width <=? String.length (NilZero.string_of_uint d))%nat;
    [now exists 0%nat|].
  destruct (unsigned_head d) as (c & s' & -> & ->).
  now eexists.
Qed.

Lemma zeros_length (n : nat) (t : string) :
  String.length (zeros n ++ t) = (n + String.length t)%nat.
Proof.
  induction n as [|n IH]; cbn; [reflexivity | now rewrite IH].
Qed.

Lemma zfill_length (width : nat) (s : string) :
  (width <= String.length (zfill width s))%nat.
Proof.
  unfold zfill. destruct (Nat.leb_spec width (String.length s)) as [Hle|Hlt];
    [exact Hle|].
  destruct s as [|c s'].
  - cbn [String.length]. rewrite Nat.sub_0_r.
    clear. induction width as [|n IH]; cbn; lia.
  - destruct (Ascii.eqb c "+" || Ascii.eqb c "-")%bool; cbn [String.length] in *.
    + rewrite zeros_length. lia.
    + rewrite zeros_length. cbn [String.length]. lia.
Qed.

Lemma invoice_number_value (r : sequence_reply) :
  0 <= next_val r -> invoice_value (invoice_number r) = Some (next_val r).
Proof.
  intros Hv. unfold invoice_value, invoice_number. cbn [String.append drop].
  destruct (str_of_int_unsigned (next_val r) Hv) as (d & -> & <-).
  destruct (zfill_unsigned 6 d) as (n & ->).
  now rewrite digits_of_zeros, digits_of_uint.
Qed.

(** X21: an invoice number is "INV-" followed by at least six characters,
    and for a sequence value that is not negative these are digits that
    read back as that value, so that two such values give the same invoice
    number only if they are equal.  When the sequence answers with no row,
    or with a row that lacks the column, the number is that of sequence
    value 1; when the sequence is unavailable, the number is that of a
    sequence value below 1000000, the clock reading modulo 1000000, and two
    clock readings 1000000 seconds apart give the same number. *)
Theorem invoice_numbers (r : sequence_reply) :
  String.prefix "INV-" (invoice_number r) = true
  /\ (10 <= String.length (invoice_number r))%nat
  /\ (0 <= next_val r -> invoice_value (invoice_number r) = Some (next_val r))
  /\ (forall r', 0 <= next_val r -> 0 <= next_val r' ->
                 invoice_number r = invoice_number r' -> next_val r = next_val r')
  /\ invoice_number (Rows []) = invoice_number (Rows [Some 1])
  /\ (forall rows, invoice_number (Rows (None :: rows)) = invoice_number (Rows [Some 1]))
  /\ (forall t, 0 <= next_val (Unavailable t) < 1000000
                /\ invoice_number (Unavailable t)
                   = invoice_number (Rows [Some (t mod 1000000)])
                /\ invoice_number (Unavailable (t + 1000000))
                   = invoice_number (Unavailable t)).
Proof.
  split; [unfold invoice_number; cbn [String.append String.prefix Ascii.eqb Bool.eqb];
          apply prefix_nil|].
  split.
  { unfold invoice_number. cbn [String.append String.length].
    pose proof (zfill_length 6 (str_of_int (next_val r))). lia. }
  split; [apply invoice_number_value|].
  split.
  { intros r' Hv Hv' Heq.
    pose proof (invoice_number_value r Hv) as H1.
    pose proof (invoice_number_value r' Hv') as H2.
    rewrite Heq in H1. congruence. }
  split; [reflexivity|]. split; [reflexivity|].
  intros t. split; [cbn [next_val]; apply Z.mod_pos_bound; lia|].
  split; [reflexivity|].
  unfold invoice_number. cbn [next_val].
  replace (t + 1000000) with (t + 1 * 1000000) by lia.
  now rewrite Z.mod_add by lia.
Qed.

Lemma invoice_numbers_witness :
  0 <= next_val (Rows [Some 7])
  /\ invoice_value (invoice_number (Rows [Some 7])) = Some 7.
Proof.
  assert (Hv : 0 <= next_val (Rows [Some 7])) by (cbn; lia).
  split; [exact Hv|].
  exact (proj1 (proj2 (proj2 (invoice_numbers (Rows [Some 7])))) Hv).
Defined.
